(** * Text width comparison views: a shallow embedding

    The repository holds two Vue single-file components that compare the
    rendered pixel width of user text with a reference width:

    - the single-field view ([SingleField] below), and
    - the multi-field view with three text areas ([MultiField] below).

    Both rely on the same JavaScript primitives (string iteration, [split],
    [repeat], a regular-expression character class) and on the DOM as a
    measuring device.  The primitives are embedded in [JS], the off-screen
    [<span>] elements in [Dom], and each component's [<script setup>] block
    in a module of its own, with the reactive [ref]s gathered in a record
    that is passed explicitly from one handler to the next.

    Conventions.
    - A JavaScript string is the list of its UTF-16 code units, each an
      integer in [Z].
    - Pixel widths are JavaScript numbers; they are only compared, maximised
      and (for the bars) divided, and are represented by rationals [Q].
    - The host layout engine is a function [render] from the content of a
      measurement span to the width of its bounding box.
    - A call of the [async] function [measureWidth] is one atomic pass, run
      once the handler that issued it has returned: its body contains no
      [await] after the initial [nextTick]. *)

From Stdlib Require Import ZArith QArith Qminmax Qround List Bool Lia Lqa.
From stdpp Require Import base list.
Import ListNotations.

Local Open Scope Z_scope.

Abbreviation jsstring := (list Z).

(* ===================================================================== *)
(** ** JavaScript string primitives *)
(* ===================================================================== *)

Module JS.

(** Errors the embedded code can throw. *)
Inductive Error : Type :=
| RangeError.

(** [s.length]: the number of UTF-16 code units. *)
Definition strlen (s : jsstring) : nat := length s.

(** Truthiness of a string: only the empty string is falsy. *)
Definition truthy (s : jsstring) : bool :=
  match s with
  | [] => false
  | _ :: _ => true
  end.

Definition isHighSurrogate (u : Z) : bool := (0xD800 <=? u) && (u <=? 0xDBFF).
Definition isLowSurrogate (u : Z) : bool := (0xDC00 <=? u) && (u <=? 0xDFFF).

(** [for (const char of s)]: the string iterator yields one string per code
    point, joining a high surrogate with the low surrogate that follows it
    and yielding every other code unit (lone surrogates included) alone. *)
Fixpoint stringIterator (s : jsstring) : list jsstring :=
  match s with
  | [] => []
  | u :: rest =>
      if isHighSurrogate u then
        match rest with
        | v :: rest' =>
            if isLowSurrogate v then [u; v] :: stringIterator rest'
            else [u] :: stringIterator rest
        | [] => [[u]]
        end
      else [u] :: stringIterator rest
  end.

(** [String.fromCodePoint]: the UTF-16 encoding of one code point. *)
Definition utf16Encode (cp : Z) : jsstring :=
  if cp <? 0x10000 then [cp]
  else [0xD800 + Z.shiftr (cp - 0x10000) 10;
        0xDC00 + Z.land (cp - 0x10000) 0x3FF].

Definition fromCodePoints (cps : list Z) : jsstring :=
  flat_map utf16Encode cps.

(** Unicode scalar values: code points that are not surrogates. *)
Definition isScalarValue (cp : Z) : Prop :=
  0 <= cp < 0xD800 \/ 0xE000 <= cp <= 0x10FFFF.

Definition LINE_FEED : Z := 10.

(** [s.split('\n')]: the pieces between line feeds; never empty. *)
Fixpoint split (s : jsstring) : list jsstring :=
  match s with
  | [] => [[]]
  | u :: rest =>
      if u =? LINE_FEED then [] :: split rest
      else
        match split rest with
        | line :: lines => (u :: line) :: lines
        | [] => [[u]]
        end
  end.

(** [lines.join('\n')], the inverse of [split]. *)
Fixpoint join (lines : list jsstring) : jsstring :=
  match lines with
  | [] => []
  | [line] => line
  | line :: lines' => line ++ LINE_FEED :: join lines'
  end.

(** [s.repeat(count)]: throws a [RangeError] on a negative count, as
    ECMAScript specifies.  The limit an engine puts on the length of a
    string, which makes it throw for very large counts too, is not part of
    this model. *)
Definition repeat (s : jsstring) (count : Z) : Error + jsstring :=
  if count <? 0 then inl RangeError
  else inr (concat (List.repeat s (Z.to_nat count))).

End JS.

(* ===================================================================== *)
(** ** The character classifier *)
(* ===================================================================== *)

(** [countCharacters] of the multi-field view, with the ranges of its
    regular expression spelled out for the statements about it. *)
Module Classifier.

(** The class [\u3040-\u309F\u30A0-\u30FF\u4E00-\u9FFF] on one code unit. *)
Definition inClass (u : Z) : bool :=
  ((0x3040 <=? u) && (u <=? 0x309F))
  || ((0x30A0 <=? u) && (u <=? 0x30FF))
  || ((0x4E00 <=? u) && (u <=? 0x9FFF)).

(** [/[...]/.test(char)] without the [u] flag: some code unit of [char]
    belongs to the class. *)
Definition regexTest (char : jsstring) : bool := existsb inClass char.

Record Counts : Type := mkCounts { fullWidth : nat; halfWidth : nat }.

Definition countStep (acc : Counts) (char : jsstring) : Counts :=
  if regexTest char
  then mkCounts (S (fullWidth acc)) (halfWidth acc)
  else mkCounts (fullWidth acc) (S (halfWidth acc)).

Definition countCharacters (text : jsstring) : Counts :=
  fold_left countStep (JS.stringIterator text) (mkCounts 0 0).

(** The three ranges as the specification words them, on a code point. *)
Definition fullWidthCodePoint (cp : Z) : Prop :=
  0x3040 <= cp <= 0x309F \/ 0x30A0 <= cp <= 0x30FF \/ 0x4E00 <= cp <= 0x9FFF.

#[global] Instance fullWidthCodePoint_dec (cp : Z) :
  Decision (fullWidthCodePoint cp).
Proof. unfold fullWidthCodePoint. apply _. Defined.

(** Code points outside the Basic Multilingual Plane. *)
Definition isAstral (cp : Z) : Prop := 0x10000 <= cp <= 0x10FFFF.

Definition isAscii (u : Z) : Prop := 0 <= u <= 0x7F.

End Classifier.

(* ===================================================================== *)
(** ** Measurement spans *)
(* ===================================================================== *)

Module Dom.

(** What a script did to a span. *)
Inductive Access : Type :=
| SetTextContent (s : jsstring)
| GetBoundingClientRect.

(** An off-screen [<span class="measurement-span">]: its current content
    and the accesses made to it, most recent first. *)
Record Span : Type := mkSpan {
  textContent : jsstring;
  accesses : list Access
}.

(** A span as the template mounts it: empty and untouched. *)
Definition mounted : Span := mkSpan [] [].

(** [el.textContent = s] *)
Definition setTextContent (s : jsstring) (el : Span) : Span :=
  mkSpan s (SetTextContent s :: accesses el).

(** [el.getBoundingClientRect().width]: the layout engine's width for the
    content the span holds at this moment. *)
Definition getBoundingClientRectWidth (render : jsstring -> Q) (el : Span)
  : Q * Span :=
  (render (textContent el),
   mkSpan (textContent el) (GetBoundingClientRect :: accesses el)).

(** The accesses made for one measured line, most recent first. *)
Definition lineAccesses (line : jsstring) : list Access :=
  [GetBoundingClientRect; SetTextContent line].

(** [a > b] on numbers. *)
Definition gt (a b : Q) : bool := negb (Qle_bool a b).

(** The loop both views run over the lines of a text:
<<
    let maxWidth = 0
    for (const line of lines) {
      el.textContent = line
      const lineWidth = el.getBoundingClientRect().width
      if (lineWidth > maxWidth) { maxWidth = lineWidth }
    }
>>
    with [maxWidth] as the accumulator. *)
Fixpoint measureLines (render : jsstring -> Q) (lines : list jsstring)
    (el : Span) (maxWidth : Q) : Q * Span :=
  match lines with
  | [] => (maxWidth, el)
  | line :: lines' =>
      let el1 := setTextContent line el in
      let '(lineWidth, el2) := getBoundingClientRectWidth render el1 in
      measureLines render lines' el2
        (if gt lineWidth maxWidth then lineWidth else maxWidth)
  end.

(** The outcome of awaiting a promise. *)
Inductive Settled : Type :=
| Resolved
| RejectedPromise.

End Dom.

(** HIRAGANA LETTER A, the reference character. *)
Definition HIRAGANA_A : Z := 0x3042.

(** The pieces of the default sample texts: the hiragana rows a-i-u-e-o and
    ka-ki-ku-ke-ko, and the digits 1234567890. *)
Definition AIUEO : jsstring := [0x3042; 0x3044; 0x3046; 0x3048; 0x304A].
Definition KAKIKUKEKO : jsstring := [0x304B; 0x304D; 0x304F; 0x3051; 0x3053].
Definition DIGITS : jsstring :=
  [0x31; 0x32; 0x33; 0x34; 0x35; 0x36; 0x37; 0x38; 0x39; 0x30].
Definition KANA10 : jsstring := AIUEO ++ KAKIKUKEKO.

(* ===================================================================== *)
(** ** The single-field view *)
(* ===================================================================== *)

Module SingleField.

Record State : Type := mkState {
  inputText : jsstring;
  referenceCharCount : Z;
  measurementRef : option Dom.Span;
  referenceMeasurementRef : option Dom.Span;
  referenceWidth : Q;
  inputWidth : Q;
  fontLoaded : bool;
  consoleErrors : nat
}.

Definition maxLength : Z := 300.
Definition EM_TO_PX : Z := 16.

Definition set_inputText (v : jsstring) (st : State) : State :=
  mkState v (referenceCharCount st) (measurementRef st)
    (referenceMeasurementRef st) (referenceWidth st) (inputWidth st)
    (fontLoaded st) (consoleErrors st).

Definition set_referenceCharCount (v : Z) (st : State) : State :=
  mkState (inputText st) v (measurementRef st)
    (referenceMeasurementRef st) (referenceWidth st) (inputWidth st)
    (fontLoaded st) (consoleErrors st).

Definition set_measurementRef (v : option Dom.Span) (st : State) : State :=
  mkState (inputText st) (referenceCharCount st) v
    (referenceMeasurementRef st) (referenceWidth st) (inputWidth st)
    (fontLoaded st) (consoleErrors st).

Definition set_referenceMeasurement (el : Dom.Span) (w : Q) (st : State)
  : State :=
  mkState (inputText st) (referenceCharCount st) (measurementRef st)
    (Some el) w (inputWidth st) (fontLoaded st) (consoleErrors st).

Definition set_inputWidth (v : Q) (st : State) : State :=
  mkState (inputText st) (referenceCharCount st) (measurementRef st)
    (referenceMeasurementRef st) (referenceWidth st) v
    (fontLoaded st) (consoleErrors st).

Definition set_fontLoaded (v : bool) (st : State) : State :=
  mkState (inputText st) (referenceCharCount st) (measurementRef st)
    (referenceMeasurementRef st) (referenceWidth st) (inputWidth st)
    v (consoleErrors st).

Definition console_error (st : State) : State :=
  mkState (inputText st) (referenceCharCount st) (measurementRef st)
    (referenceMeasurementRef st) (referenceWidth st) (inputWidth st)
    (fontLoaded st) (S (consoleErrors st)).

(** How a call of an [async] function ends, and the state it leaves. *)
Inductive Outcome : Type :=
| Fulfilled (st : State)
| Rejected (e : JS.Error) (st : State).

Definition stateOf (o : Outcome) : State :=
  match o with
  | Fulfilled st => st
  | Rejected _ st => st
  end.

Definition remainingChars (st : State) : Z :=
  maxLength - Z.of_nat (JS.strlen (inputText st)).

Definition referenceText (st : State) : JS.Error + jsstring :=
  JS.repeat [HIRAGANA_A] (referenceCharCount st).

(** First half of [measureWidth]: the reference span.  [referenceText] is
    evaluated before anything is assigned, so an exception leaves the state
    as it was. *)
Definition measureReference (render : jsstring -> Q) (st : State)
  : JS.Error + State :=
  match referenceMeasurementRef st with
  | Some el =>
      match referenceText st with
      | inl e => inl e
      | inr txt =>
          let '(w, el') :=
            Dom.getBoundingClientRectWidth render (Dom.setTextContent txt el) in
          inr (set_referenceMeasurement el' w st)
      end
  | None => inr st
  end.

Definition measureWidth (render : jsstring -> Q) (st : State) : Outcome :=
  match measureReference render st with
  | inl e => Rejected e st
  | inr st1 =>
      match measurementRef st1 with
      | Some el =>
          if JS.truthy (inputText st1) then
            let lines := JS.split (inputText st1) in
            let '(maxWidth, el') := Dom.measureLines render lines el 0%Q in
            Fulfilled (set_inputWidth maxWidth (set_measurementRef (Some el') st1))
          else Fulfilled (set_inputWidth 0%Q st1)
      | None => Fulfilled (set_inputWidth 0%Q st1)
      end
  end.

Definition handleInput (render : jsstring -> Q) (st : State) : Outcome :=
  measureWidth render st.

Definition handleReferenceCharCountChange (render : jsstring -> Q)
    (st : State) : Outcome :=
  let st1 :=
    if referenceCharCount st <? 1 then set_referenceCharCount 1 st else st in
  measureWidth render st1.

Definition widthDifference (st : State) : Q :=
  (inputWidth st - referenceWidth st)%Q.

Definition theoreticalReferenceWidth (st : State) : Z :=
  EM_TO_PX * referenceCharCount st.

Definition referenceBarWidth (st : State) : Q :=
  let maxWidth := Qmax (referenceWidth st) (inputWidth st) in
  if Dom.gt maxWidth 0%Q then ((referenceWidth st / maxWidth) * 100)%Q else 0%Q.

Definition inputBarWidth (st : State) : Q :=
  let maxWidth := Qmax (referenceWidth st) (inputWidth st) in
  if Dom.gt maxWidth 0%Q then ((inputWidth st / maxWidth) * 100)%Q else 0%Q.

(** [onMounted]: [fonts] is how [document.fonts.load(...)] settles. *)
Definition onMounted (render : jsstring -> Q) (fonts : Dom.Settled)
    (st : State) : Outcome :=
  match fonts with
  | Dom.Resolved => measureWidth render (set_fontLoaded true st)
  | Dom.RejectedPromise =>
      measureWidth render (set_fontLoaded true (console_error st))
  end.

(** The component when it is created, before the template is mounted. *)
Definition created : State :=
  mkState
    (KANA10 ++ KANA10 ++ KANA10 ++ AIUEO ++ [JS.LINE_FEED]
     ++ DIGITS ++ DIGITS ++ DIGITS ++ DIGITS ++ DIGITS ++ DIGITS)
    35 None None 0%Q 0%Q false 0.

(** Mounting the template binds both spans. *)
Definition mount (st : State) : State :=
  mkState (inputText st) (referenceCharCount st) (Some Dom.mounted)
    (Some Dom.mounted) (referenceWidth st) (inputWidth st) (fontLoaded st)
    (consoleErrors st).

End SingleField.

(* ===================================================================== *)
(** ** The multi-field view *)
(* ===================================================================== *)

Module MultiField.

Record TextAreaData : Type := mkTextArea {
  text : jsstring;
  width : Q;
  fullWidthCount : nat;
  halfWidthCount : nat;
  exceedsReference : bool
}.

Record State : Type := mkState {
  textAreas : list TextAreaData;
  referenceCharCount : Z;
  measurementRefs : list (option Dom.Span);
  referenceMeasurementRef : option Dom.Span;
  referenceWidth : Q;
  fontLoaded : bool;
  consoleErrors : nat
}.

Definition maxLength : Z := 300.
Definition EM_TO_PX : Z := 16.

Definition set_textAreas (v : list TextAreaData) (st : State) : State :=
  mkState v (referenceCharCount st) (measurementRefs st)
    (referenceMeasurementRef st) (referenceWidth st) (fontLoaded st)
    (consoleErrors st).

Definition set_referenceCharCount (v : Z) (st : State) : State :=
  mkState (textAreas st) v (measurementRefs st)
    (referenceMeasurementRef st) (referenceWidth st) (fontLoaded st)
    (consoleErrors st).

Definition set_measurementRefs (v : list (option Dom.Span)) (st : State)
  : State :=
  mkState (textAreas st) (referenceCharCount st) v
    (referenceMeasurementRef st) (referenceWidth st) (fontLoaded st)
    (consoleErrors st).

Definition set_referenceMeasurement (el : Dom.Span) (w : Q) (st : State)
  : State :=
  mkState (textAreas st) (referenceCharCount st) (measurementRefs st)
    (Some el) w (fontLoaded st) (consoleErrors st).

Definition set_fontLoaded (v : bool) (st : State) : State :=
  mkState (textAreas st) (referenceCharCount st) (measurementRefs st)
    (referenceMeasurementRef st) (referenceWidth st) v (consoleErrors st).

Definition console_error (st : State) : State :=
  mkState (textAreas st) (referenceCharCount st) (measurementRefs st)
    (referenceMeasurementRef st) (referenceWidth st) (fontLoaded st)
    (S (consoleErrors st)).

Inductive Outcome : Type :=
| Fulfilled (st : State)
| Rejected (e : JS.Error) (st : State).

Definition stateOf (o : Outcome) : State :=
  match o with
  | Fulfilled st => st
  | Rejected _ st => st
  end.

Definition errorsOf (o : Outcome) : list JS.Error :=
  match o with
  | Fulfilled _ => []
  | Rejected e _ => [e]
  end.

(** [array[index]] for a numeric index: [undefined] outside the array. *)
Definition at_index {A : Type} (l : list A) (index : Z) : option A :=
  if index <? 0 then None else l !! Z.to_nat index.

Definition referenceText (st : State) : JS.Error + jsstring :=
  JS.repeat [HIRAGANA_A] (referenceCharCount st).

Definition theoreticalReferenceWidth (st : State) : Z :=
  EM_TO_PX * referenceCharCount st.

Definition countCharacters (text : jsstring) : Classifier.Counts :=
  Classifier.countCharacters text.

Definition measureReference (render : jsstring -> Q) (st : State)
  : JS.Error + State :=
  match referenceMeasurementRef st with
  | Some el =>
      match referenceText st with
      | inl e => inl e
      | inr txt =>
          let '(w, el') :=
            Dom.getBoundingClientRectWidth render (Dom.setTextContent txt el) in
          inr (set_referenceMeasurement el' w st)
      end
  | None => inr st
  end.

(** The [if (measurementRef) { ... } else { ... }] of [measureWidth]: the
    new width of the text area and the spans after the loop. *)
Definition measureSpan (render : jsstring -> Q) (index : Z)
    (textarea : TextAreaData) (st : State) : Q * list (option Dom.Span) :=
  match mjoin (at_index (measurementRefs st) index) with
  | Some el =>
      let lines := JS.split (text textarea) in
      let '(maxWidth, el') := Dom.measureLines render lines el 0%Q in
      (maxWidth, <[Z.to_nat index := Some el']> (measurementRefs st))
  | None => (0%Q, measurementRefs st)
  end.

(** The part of [measureWidth] after the early return: [textarea] is the
    entry found at [index]. *)
Definition measureField (render : jsstring -> Q) (index : Z)
    (textarea : TextAreaData) (st : State) : State :=
  let i := Z.to_nat index in
  let '(w, refs) := measureSpan render index textarea st in
  let counts := countCharacters (text textarea) in
  let exceeds := Dom.gt w (inject_Z (theoreticalReferenceWidth st)) in
  let textarea' :=
    mkTextArea (text textarea) w (Classifier.fullWidth counts)
      (Classifier.halfWidth counts) exceeds in
  set_textAreas (<[i := textarea']> (textAreas st)) (set_measurementRefs refs st).

Definition measureWidth (render : jsstring -> Q) (index : Z) (st : State)
  : Outcome :=
  match measureReference render st with
  | inl e => Rejected e st
  | inr st1 =>
      match at_index (textAreas st1) index with
      | None => Fulfilled st1
      | Some textarea => Fulfilled (measureField render index textarea st1)
      end
  end.

Definition handleInput (render : jsstring -> Q) (index : Z) (st : State)
  : Outcome :=
  measureWidth render index st.

(** [textAreas.value.forEach((_, index) => { measureWidth(index) })]: one
    pass per index, in order; a rejected pass does not stop the next ones.
    The result carries the errors of the rejected passes. *)
Fixpoint measureEach (render : jsstring -> Q) (indices : list Z) (st : State)
  : State * list JS.Error :=
  match indices with
  | [] => (st, [])
  | index :: rest =>
      let o := measureWidth render index st in
      let '(st', errs) := measureEach render rest (stateOf o) in
      (st', errorsOf o ++ errs)
  end.

Definition indicesOf (st : State) : list Z :=
  map Z.of_nat (seq 0 (length (textAreas st))).

Definition handleReferenceCharCountChange (render : jsstring -> Q)
    (st : State) : State * list JS.Error :=
  let st1 :=
    if referenceCharCount st <? 1 then set_referenceCharCount 1 st else st in
  measureEach render (indicesOf st1) st1.

Definition inputCharCount (index : Z) (st : State) : nat :=
  match at_index (textAreas st) index with
  | Some textarea => JS.strlen (text textarea)
  | None => 0%nat
  end.

Definition rulerMaxCount : Z :=
  let estimatedWidth := inject_Z 800 in
  Qceiling (estimatedWidth / inject_Z EM_TO_PX)%Q.

(** [onMounted]: [fonts] is how [document.fonts.ready] settles. *)
Definition onMounted (render : jsstring -> Q) (fonts : Dom.Settled)
    (st : State) : State * list JS.Error :=
  match fonts with
  | Dom.Resolved =>
      let st1 := set_fontLoaded true st in
      measureEach render (indicesOf st1) st1
  | Dom.RejectedPromise => (set_fontLoaded true (console_error st), [])
  end.

Definition sample (s : jsstring) : TextAreaData :=
  mkTextArea s 0%Q 0 0 false.

(** The component when it is created, before the template is mounted. *)
Definition created : State :=
  mkState
    [ sample (KANA10 ++ DIGITS);
      sample (KANA10 ++ KANA10 ++ KANA10 ++ AIUEO);
      sample (KANA10 ++ DIGITS ++ KANA10 ++ DIGITS ++ [JS.LINE_FEED]
              ++ KANA10 ++ DIGITS ++ KANA10 ++ DIGITS ++ AIUEO) ]
    35 [None; None; None] None 0%Q false 0.

(** Mounting the template binds every span: the reference span and one
    span per text area. *)
Definition mount (st : State) : State :=
  mkState (textAreas st) (referenceCharCount st)
    (map (fun _ => Some Dom.mounted) (textAreas st))
    (Some Dom.mounted) (referenceWidth st) (fontLoaded st) (consoleErrors st).

End MultiField.

(* ===================================================================== *)
(** ** Properties the views are checked against *)
(* ===================================================================== *)

Module Spec.

(** What the first half of a pass of the single-field view may change:
    nothing, or the reference span and the reference width. *)
Inductive singleReferenceOnly (st : SingleField.State)
  : SingleField.State -> Prop :=
| single_reference_same : singleReferenceOnly st st
| single_reference_measured (el : Dom.Span) (w : Q) :
    singleReferenceOnly st (SingleField.set_referenceMeasurement el w st).

(** The same for the multi-field view. *)
Inductive referenceOnly (st : MultiField.State) : MultiField.State -> Prop :=
| reference_same : referenceOnly st st
| reference_measured (el : Dom.Span) (w : Q) :
    referenceOnly st (MultiField.set_referenceMeasurement el w st).

(** The state of the multi-field view once the reference span has been
    measured, or the state as it was if that threw. *)
Definition afterReference (render : jsstring -> Q) (st : MultiField.State)
  : MultiField.State :=
  match MultiField.measureReference render st with
  | inl _ => st
  | inr st1 => st1
  end.

(** The entry a full pass of the multi-field view writes back at [index],
    [st] being the state after the reference span has been measured. *)
Definition measured (render : jsstring -> Q) (index : Z)
    (textarea : MultiField.TextAreaData) (st : MultiField.State)
  : MultiField.TextAreaData :=
  let w := fst (MultiField.measureSpan render index textarea st) in
  let counts := MultiField.countCharacters (MultiField.text textarea) in
  MultiField.mkTextArea (MultiField.text textarea) w
    (Classifier.fullWidth counts) (Classifier.halfWidth counts)
    (Dom.gt w (inject_Z (MultiField.theoreticalReferenceWidth st))).

(** [lines] are the pieces of [text] between its line breaks. *)
Definition linesOf (text : jsstring) (lines : list jsstring) : Prop :=
  JS.join lines = text
  /\ forall line, In line lines -> ~ In JS.LINE_FEED line.

(** [w] is the largest of the rendered widths of [lines]. *)
Definition widest (render : jsstring -> Q) (lines : list jsstring) (w : Q)
  : Prop :=
  (forall line, In line lines -> (render line <= w)%Q)
  /\ exists line, In line lines /\ (w == render line)%Q.

(** The layout engine never reports a negative width. *)
Definition nonNegative (render : jsstring -> Q) : Prop :=
  forall s, (0 <= render s)%Q.

(** The overflow flag of a text area agrees with the strict comparison of
    its width with [charCount * 16]. *)
Definition flagMatches (charCount : Z) (ta : MultiField.TextAreaData) : Prop :=
  (MultiField.exceedsReference ta = true
   <-> (inject_Z (charCount * 16) < MultiField.width ta)%Q)
  /\ ((MultiField.width ta == inject_Z (charCount * 16))%Q
      -> MultiField.exceedsReference ta = false).

(** Every entry found at position [j] has a flag that matches its width. *)
Definition flagOkAt (st : MultiField.State) (j : nat) : Prop :=
  forall ta, MultiField.textAreas st !! j = Some ta ->
    flagMatches (MultiField.referenceCharCount st) ta.

(** A layout engine that gives every code unit one em: 16 pixels. *)
Definition monospace16 (s : jsstring) : Q :=
  inject_Z (16 * Z.of_nat (length s)).

(** The text has three lines, rendered at 40, 120 and 75 pixels. *)
Definition threeLineWidths (render : jsstring -> Q) (text : jsstring) : Prop :=
  exists l1 l2 l3,
    text = l1 ++ JS.LINE_FEED :: l2 ++ JS.LINE_FEED :: l3
    /\ ~ In JS.LINE_FEED l1 /\ ~ In JS.LINE_FEED l2 /\ ~ In JS.LINE_FEED l3
    /\ (render l1 == 40)%Q /\ (render l2 == 120)%Q /\ (render l3 == 75)%Q.

End Spec.

(* ===================================================================== *)
(** ** Concrete states and layout engines *)
(* ===================================================================== *)

Module Scenarios.

(** The single-field view, mounted, after the user has cleared the text. *)
Definition singleCleared : SingleField.State :=
  SingleField.set_inputText [] (SingleField.mount SingleField.created).

(** The multi-field view, mounted, after the user has cleared the first
    text area. *)
Definition multiFirstCleared : MultiField.State :=
  MultiField.mount
    (MultiField.set_textAreas
       (<[0%nat := MultiField.mkTextArea [] 0%Q 0 0 false]>
          (MultiField.textAreas MultiField.created))
       MultiField.created).

(** The text [a], [bb], [ccc] on three lines, and a layout engine that
    renders them at 40, 120 and 75 pixels. *)
Definition threeLines : jsstring :=
  [0x61; JS.LINE_FEED; 0x62; 0x62; JS.LINE_FEED; 0x63; 0x63; 0x63].

Definition render3 (s : jsstring) : Q :=
  match length s with
  | 1%nat => 40%Q
  | 2%nat => 120%Q
  | 3%nat => 75%Q
  | _ => 0%Q
  end.

Definition singleThreeLines : SingleField.State :=
  SingleField.set_inputText threeLines (SingleField.mount SingleField.created).

Definition multiThreeLines : MultiField.State :=
  MultiField.mount
    (MultiField.set_textAreas
       (<[0%nat := MultiField.mkTextArea threeLines 0%Q 0 0 false]>
          (MultiField.textAreas MultiField.created))
       MultiField.created).

(** The single-field view with a reference width of 560 pixels and an
    input width of 280 pixels. *)
Definition halfOfReference : SingleField.State :=
  SingleField.mkState (KANA10 ++ KANA10 ++ KANA10 ++ AIUEO) 35
    (Some Dom.mounted) (Some Dom.mounted) 560%Q 280%Q true 0.

End Scenarios.

(* ===================================================================== *)
(** ** What the templates display *)
(* ===================================================================== *)

Module Display.

(** [a < b] on numbers. *)
Definition lt (a b : Q) : bool := negb (Qle_bool b a).

(** The pieces of the difference label: a plus sign, the two suffixes that
    follow the formatted number, and the label for equal widths. *)
Definition PLUS : jsstring := [0x2B].
Definition LONGER_SUFFIX : jsstring :=
  [0x70; 0x78; 0x20; 0x28; 0x57FA; 0x6E96; 0x3088; 0x308A; 0x9577; 0x3044; 0x29].
Definition SHORTER_SUFFIX : jsstring :=
  [0x70; 0x78; 0x20; 0x28; 0x57FA; 0x6E96; 0x3088; 0x308A; 0x77ED; 0x3044; 0x29].
Definition SAME_LABEL : jsstring :=
  [0x30; 0x70; 0x78; 0x20; 0x28; 0x57FA; 0x6E96; 0x3068; 0x540C; 0x3058; 0x29].

(** [differenceText] of the single-field view.  [toFixed x digits] stands
    for [x.toFixed(digits)], the host's number formatting. *)
Definition differenceText (toFixed : Q -> Z -> jsstring)
    (st : SingleField.State) : jsstring :=
  let diff := SingleField.widthDifference st in
  if Dom.gt diff 0%Q then PLUS ++ toFixed diff 2 ++ LONGER_SUFFIX
  else if lt diff 0%Q then toFixed diff 2 ++ SHORTER_SUFFIX
  else SAME_LABEL.

(** The class bindings [positive: widthDifference > 0] and
    [negative: widthDifference < 0] of the difference label. *)
Definition positiveClass (st : SingleField.State) : bool :=
  Dom.gt (SingleField.widthDifference st) 0%Q.

Definition negativeClass (st : SingleField.State) : bool :=
  lt (SingleField.widthDifference st) 0%Q.

(** [warning: remainingChars < 50] of the single-field character counter. *)
Definition remainingWarning (st : SingleField.State) : bool :=
  SingleField.remainingChars st <? 50.

(** [warning: inputCharCount(index) >= maxLength - 50] of the multi-field
    character counters. *)
Definition charCounterWarning (index : Z) (st : MultiField.State) : bool :=
  MultiField.maxLength - 50 <=? Z.of_nat (MultiField.inputCharCount index st).

End Display.

(* ===================================================================== *)
(** ** Descriptions of what a pass computes *)
(* ===================================================================== *)

Module Observations.

(** The largest line width above the start value [m], without a span. *)
Definition maxLineWidth (render : jsstring -> Q) (lines : list jsstring)
    (m : Q) : Q :=
  fold_left
    (fun acc line => if Dom.gt (render line) acc then render line else acc)
    lines m.

(** The reference character repeated [count] times. *)
Definition referenceString (count : Z) : jsstring :=
  List.repeat HIRAGANA_A (Z.to_nat count).

(** The number of line feeds of a text. *)
Definition lineFeeds (s : jsstring) : nat :=
  length (List.filter (fun u => u =? JS.LINE_FEED) s).

(** The width a text gets: measured when its span is bound, 0 otherwise. *)
Definition widthOf (render : jsstring -> Q) (bound : bool) (s : jsstring) : Q :=
  if bound then maxLineWidth render (JS.split s) 0%Q else 0%Q.

(** Whether the span of position [j] is bound. *)
Definition bound (st : MultiField.State) (j : nat) : bool :=
  match MultiField.measurementRefs st !! j with
  | Some (Some _) => true
  | _ => false
  end.

(** A text area measured afresh against the reference count [count]. *)
Definition freshArea (render : jsstring -> Q) (count : Z) (isBound : bool)
    (ta : MultiField.TextAreaData) : MultiField.TextAreaData :=
  let w := widthOf render isBound (MultiField.text ta) in
  let counts := Classifier.countCharacters (MultiField.text ta) in
  MultiField.mkTextArea (MultiField.text ta) w
    (Classifier.fullWidth counts) (Classifier.halfWidth counts)
    (Dom.gt w (inject_Z (16 * count))).

(** The input width a pass of the single-field view stores. *)
Definition singleInputWidth (render : jsstring -> Q) (st : SingleField.State)
  : Q :=
  match SingleField.measurementRef st with
  | Some _ =>
      if JS.truthy (SingleField.inputText st)
      then maxLineWidth render (JS.split (SingleField.inputText st)) 0%Q
      else 0%Q
  | None => 0%Q
  end.

(** The reference width after a pass of the single-field view. *)
Definition singleReferenceWidth (render : jsstring -> Q)
    (st : SingleField.State) : Q :=
  match SingleField.referenceMeasurementRef st with
  | Some _ => render (referenceString (SingleField.referenceCharCount st))
  | None => SingleField.referenceWidth st
  end.

(** Whether an optional span is there. *)
Definition isBound (el : option Dom.Span) : bool :=
  match el with
  | Some _ => true
  | None => false
  end.

(** Two states of the single-field view that differ at most in the number
    of console errors. *)
Definition sameButConsole (a b : SingleField.State) : Prop :=
  SingleField.inputText a = SingleField.inputText b
  /\ SingleField.referenceCharCount a = SingleField.referenceCharCount b
  /\ SingleField.measurementRef a = SingleField.measurementRef b
  /\ SingleField.referenceMeasurementRef a = SingleField.referenceMeasurementRef b
  /\ SingleField.referenceWidth a = SingleField.referenceWidth b
  /\ SingleField.inputWidth a = SingleField.inputWidth b
  /\ SingleField.fontLoaded a = SingleField.fontLoaded b.

End Observations.

(* ===================================================================== *)
(** ** Facts about the JavaScript primitives *)
(* ===================================================================== *)

Module JSFacts.
Import JS.

Lemma surrogate_pair_bounds (cp : Z) :
  0x10000 <= cp <= 0x10FFFF ->
  0xD800 <= 0xD800 + Z.shiftr (cp - 0x10000) 10 <= 0xDBFF /\
  0xDC00 <= 0xDC00 + Z.land (cp - 0x10000) 0x3FF <= 0xDFFF.
Proof.
  intros Hcp.
  rewrite Z.shiftr_div_pow2 by lia.
  change 0x3FF with (Z.ones 10).
  rewrite Z.land_ones by lia.
  change (2 ^ 10) with 1024.
  assert (0 <= (cp - 0x10000) / 1024 < 1024)
    by (split; [apply Z.div_pos | apply Z.div_lt_upper_bound]; lia).
  assert (0 <= (cp - 0x10000) mod 1024 < 1024)
    by (apply Z.mod_pos_bound; lia).
  lia.
Qed.

Lemma isHighSurrogate_true (u : Z) :
  isHighSurrogate u = true <-> 0xD800 <= u <= 0xDBFF.
Proof. unfold isHighSurrogate. rewrite andb_true_iff, !Z.leb_le. tauto. Qed.

Lemma isLowSurrogate_true (u : Z) :
  isLowSurrogate u = true <-> 0xDC00 <= u <= 0xDFFF.
Proof. unfold isLowSurrogate. rewrite andb_true_iff, !Z.leb_le. tauto. Qed.

Lemma isHighSurrogate_false (u : Z) :
  u < 0xD800 \/ 0xDBFF < u -> isHighSurrogate u = false.
Proof.
  intros H. destruct (isHighSurrogate u) eqn:E; [|reflexivity].
  apply isHighSurrogate_true in E. lia.
Qed.

(** Iterating over the encoding of a scalar value followed by anything
    yields that encoding first. *)
Lemma stringIterator_encode (cp : Z) (rest : jsstring) :
  isScalarValue cp ->
  stringIterator (utf16Encode cp ++ rest) = utf16Encode cp :: stringIterator rest.
Proof.
  intros Hcp. unfold utf16Encode.
  destruct (Z.ltb_spec cp 0x10000) as [Hlt | Hge].
  - cbn [app stringIterator].
    rewrite isHighSurrogate_false; [reflexivity|].
    unfold isScalarValue in Hcp. lia.
  - assert (Hr : 0x10000 <= cp <= 0x10FFFF) by (unfold isScalarValue in Hcp; lia).
    destruct (surrogate_pair_bounds cp Hr) as [Hhi Hlo].
    cbn [app stringIterator].
    apply isHighSurrogate_true in Hhi. apply isLowSurrogate_true in Hlo.
    rewrite Hhi, Hlo. reflexivity.
Qed.

Lemma stringIterator_fromCodePoints (cps : list Z) :
  Forall isScalarValue cps ->
  stringIterator (fromCodePoints cps) = map utf16Encode cps.
Proof.
  induction 1 as [| cp cps Hcp _ IH]; [reflexivity|].
  unfold fromCodePoints in *. cbn [flat_map map].
  rewrite stringIterator_encode by assumption. now rewrite IH.
Qed.

(** Without high surrogates every code unit is a character of its own. *)
Lemma stringIterator_bmp (s : jsstring) :
  Forall (fun u => isHighSurrogate u = false) s ->
  stringIterator s = map (fun u => [u]) s.
Proof.
  induction 1 as [| u s Hu _ IH]; [reflexivity|].
  cbn [stringIterator map]. rewrite Hu. now rewrite IH.
Qed.

Lemma split_not_nil (s : jsstring) : split s <> [].
Proof.
  induction s as [| u s IH]; cbn [split]; [discriminate|].
  destruct (u =? LINE_FEED); [discriminate|].
  destruct (split s); [contradiction | discriminate].
Qed.

Lemma join_split (s : jsstring) : join (split s) = s.
Proof.
  induction s as [| u s IH]; [reflexivity|].
  cbn [split]. destruct (Z.eqb_spec u LINE_FEED) as [-> | Hne].
  - pose proof (split_not_nil s) as Hnn.
    cbn [join]. destruct (split s) as [| l ls]; [contradiction|].
    cbn [app]. now rewrite IH.
  - pose proof (split_not_nil s) as Hnn.
    destruct (split s) as [| l ls]; [contradiction|].
    rewrite <- IH. destruct ls; reflexivity.
Qed.

Lemma split_no_line_feed (s line : jsstring) :
  In line (split s) -> ~ In LINE_FEED line.
Proof.
  revert line. induction s as [| u s IH]; intros line Hin; cbn [split] in Hin.
  - destruct Hin as [<- | []]. intros [].
  - destruct (Z.eqb_spec u LINE_FEED) as [-> | Hne].
    + destruct Hin as [<- | Hin]; [intros [] | now apply IH].
    + destruct (split s) as [| l ls].
      * destruct Hin as [<- | []]. intros [E | []]. congruence.
      * destruct Hin as [<- | Hin].
        -- intros [E | Hl]; [congruence|]. apply (IH l); [now left | assumption].
        -- apply IH. now right.
Qed.

Lemma split_line (line : jsstring) :
  ~ In LINE_FEED line -> split line = [line].
Proof.
  induction line as [| u line IH]; intros Hn; [reflexivity|].
  cbn [split]. destruct (Z.eqb_spec u LINE_FEED) as [-> | Hne].
  - exfalso. apply Hn. now left.
  - rewrite IH by (intros Hin; apply Hn; now right). reflexivity.
Qed.

Lemma split_app_line_feed (line s : jsstring) :
  ~ In LINE_FEED line -> split (line ++ LINE_FEED :: s) = line :: split s.
Proof.
  induction line as [| u line IH]; intros Hn; cbn [app split].
  - now rewrite Z.eqb_refl.
  - destruct (Z.eqb_spec u LINE_FEED) as [-> | Hne].
    + exfalso. apply Hn. now left.
    + rewrite IH by (intros Hin; apply Hn; now right). reflexivity.
Qed.

Lemma split_linesOf (s : jsstring) : Spec.linesOf s (split s).
Proof.
  split; [apply join_split | intros line; apply split_no_line_feed].
Qed.

Lemma repeat_nonneg (s : jsstring) (count : Z) :
  0 <= count -> repeat s count = inr (concat (List.repeat s (Z.to_nat count))).
Proof.
  intros H. unfold repeat. destruct (Z.ltb_spec count 0); [lia | reflexivity].
Qed.

End JSFacts.

(* ===================================================================== *)
(** ** The character classifier: by code point, three ranges *)
(* ===================================================================== *)

Module ClassifierFacts.
Import JS Classifier.

Lemma inClass_true (u : Z) : inClass u = true <-> fullWidthCodePoint u.
Proof.
  unfold inClass, fullWidthCodePoint.
  rewrite !orb_true_iff, !andb_true_iff, !Z.leb_le. tauto.
Qed.

Lemma inClass_false (u : Z) : inClass u = false <-> ~ fullWidthCodePoint u.
Proof.
  rewrite <- inClass_true. destruct (inClass u); split; congruence.
Qed.

(** The test on a whole character agrees with the ranges on its code
    point: the two surrogates of an astral character lie outside them. *)
Lemma regexTest_encode (cp : Z) :
  cp <= 0x10FFFF ->
  regexTest (utf16Encode cp) = true <-> fullWidthCodePoint cp.
Proof.
  intros Hcp. unfold utf16Encode, regexTest.
  destruct (Z.ltb_spec cp 0x10000) as [Hlt | Hge]; cbn [existsb].
  - rewrite orb_false_r. apply inClass_true.
  - destruct (JSFacts.surrogate_pair_bounds cp (conj Hge Hcp)) as [Hhi Hlo].
    rewrite orb_false_r, orb_true_iff, !inClass_true.
    unfold fullWidthCodePoint. lia.
Qed.

Lemma countCharacters_nil : countCharacters [] = mkCounts 0 0.
Proof. reflexivity. Qed.

Lemma fold_countStep_sum (chars : list jsstring) (acc : Counts) :
  (fullWidth (fold_left countStep chars acc)
   + halfWidth (fold_left countStep chars acc)
   = fullWidth acc + halfWidth acc + length chars)%nat.
Proof.
  revert acc. induction chars as [| c chars IH]; intros acc; cbn [fold_left length].
  - lia.
  - rewrite IH. unfold countStep. destruct (regexTest c); cbn; lia.
Qed.

Lemma fold_countStep_all_full (chars : list jsstring) (acc : Counts) :
  Forall (fun c => regexTest c = true) chars ->
  fold_left countStep chars acc
  = mkCounts (fullWidth acc + length chars) (halfWidth acc).
Proof.
  intros H. revert acc.
  induction H as [| c chars Hc _ IH]; intros acc; cbn [fold_left length].
  - destruct acc; cbn. f_equal; lia.
  - rewrite IH. unfold countStep. rewrite Hc. cbn. f_equal; lia.
Qed.

Lemma fold_countStep_all_half (chars : list jsstring) (acc : Counts) :
  Forall (fun c => regexTest c = false) chars ->
  fold_left countStep chars acc
  = mkCounts (fullWidth acc) (halfWidth acc + length chars).
Proof.
  intros H. revert acc.
  induction H as [| c chars Hc _ IH]; intros acc; cbn [fold_left length].
  - destruct acc; cbn. f_equal; lia.
  - rewrite IH. unfold countStep. rewrite Hc. cbn. f_equal; lia.
Qed.

(** The counts after folding over the encodings of a list of code points. *)
Lemma fold_countStep_encode (cps : list Z) (acc : Counts) :
  Forall (fun cp => cp <= 0x10FFFF) cps ->
  fold_left countStep (map utf16Encode cps) acc
  = mkCounts
      (fullWidth acc + length (filter fullWidthCodePoint cps))
      (halfWidth acc + length (filter (fun cp => ~ fullWidthCodePoint cp) cps)).
Proof.
  intros H. revert acc.
  induction H as [| cp cps Hcp _ IH]; intros acc; cbn [fold_left map].
  - destruct acc; cbn. f_equal; lia.
  - rewrite IH. unfold countStep.
    pose proof (regexTest_encode cp Hcp) as Ht.
    rewrite !filter_cons.
    destruct (decide (fullWidthCodePoint cp)) as [Hin | Hout].
    + rewrite (proj2 Ht Hin).
      destruct (decide (~ fullWidthCodePoint cp)); [contradiction|].
      cbn. f_equal; lia.
    + destruct (regexTest (utf16Encode cp)) eqn:E;
        [exfalso; apply Hout, Ht; reflexivity|].
      destruct (decide (~ fullWidthCodePoint cp)); [|contradiction].
      cbn. f_equal; lia.
Qed.

Lemma scalar_le_max (cps : list Z) :
  Forall isScalarValue cps -> Forall (fun cp => cp <= 0x10FFFF) cps.
Proof. apply List.Forall_impl. unfold isScalarValue. intros cp Hcp. lia. Qed.

Lemma countCharacters_fromCodePoints (cps : list Z) :
  Forall isScalarValue cps ->
  countCharacters (fromCodePoints cps)
  = mkCounts (length (filter fullWidthCodePoint cps))
      (length (filter (fun cp => ~ fullWidthCodePoint cp) cps)).
Proof.
  intros H. unfold countCharacters.
  rewrite JSFacts.stringIterator_fromCodePoints by assumption.
  rewrite fold_countStep_encode by now apply scalar_le_max.
  reflexivity.
Qed.

Lemma countCharacters_bmp (s : jsstring) :
  Forall (fun u => isHighSurrogate u = false) s ->
  countCharacters s = fold_left countStep (map (fun u => [u]) s) (mkCounts 0 0).
Proof.
  intros H. unfold countCharacters. now rewrite JSFacts.stringIterator_bmp.
Qed.

Lemma countCharacters_all_full (text : jsstring) :
  Forall fullWidthCodePoint text ->
  countCharacters text = mkCounts (strlen text) 0.
Proof.
  intros H. rewrite countCharacters_bmp.
  - rewrite fold_countStep_all_full.
    + now rewrite length_map.
    + apply List.Forall_map. revert H. apply List.Forall_impl. intros u Hu.
      unfold regexTest. cbn [existsb]. rewrite orb_false_r.
      now apply inClass_true.
  - revert H. apply List.Forall_impl. intros u Hu.
    apply JSFacts.isHighSurrogate_false. unfold fullWidthCodePoint in Hu. lia.
Qed.

Lemma countCharacters_ascii (text : jsstring) :
  Forall isAscii text ->
  countCharacters text = mkCounts 0 (strlen text).
Proof.
  intros H. rewrite countCharacters_bmp.
  - rewrite fold_countStep_all_half.
    + now rewrite length_map.
    + apply List.Forall_map. revert H. apply List.Forall_impl. intros u Hu.
      unfold regexTest. cbn [existsb]. rewrite orb_false_r.
      apply inClass_false. unfold isAscii in Hu. unfold fullWidthCodePoint. lia.
  - revert H. apply List.Forall_impl. intros u Hu.
    apply JSFacts.isHighSurrogate_false. unfold isAscii in Hu. lia.
Qed.

End ClassifierFacts.

Module ClassifierClaims.
Import JS Classifier.

(** Claim C4.  [countCharacters] walks the text by code point and counts a
    code point as full-width exactly when it lies in U+3040..U+309F,
    U+30A0..U+30FF or U+4E00..U+9FFF, every other code point as half-width.
    Hence a text made only of characters of those ranges has
    [fullWidth = length] and [halfWidth = 0], an ASCII text has
    [fullWidth = 0] and [halfWidth = length], and the empty text gives
    [{0, 0}]. *)
Theorem C4_countCharacters_three_ranges :
  (forall cp : Z, isScalarValue cp ->
     countCharacters (utf16Encode cp)
     = if decide (fullWidthCodePoint cp) then mkCounts 1 0 else mkCounts 0 1)
  /\ (forall cps : list Z, Forall isScalarValue cps ->
        countCharacters (fromCodePoints cps)
        = mkCounts (length (filter fullWidthCodePoint cps))
            (length (filter (fun cp => ~ fullWidthCodePoint cp) cps)))
  /\ (forall text : jsstring, Forall fullWidthCodePoint text ->
        countCharacters text = mkCounts (strlen text) 0)
  /\ (forall text : jsstring, Forall isAscii text ->
        countCharacters text = mkCounts 0 (strlen text))
  /\ countCharacters [] = mkCounts 0 0.
Proof.
  split; [| split; [| split; [| split]]].
  - intros cp Hcp.
    pose proof (ClassifierFacts.countCharacters_fromCodePoints [cp]) as H.
    unfold fromCodePoints in H. cbn [flat_map] in H. rewrite app_nil_r in H.
    rewrite H by (constructor; [assumption | constructor]).
    rewrite !filter_cons, !filter_nil.
    destruct (decide (fullWidthCodePoint cp));
      destruct (decide (~ fullWidthCodePoint cp)); try contradiction; reflexivity.
  - exact ClassifierFacts.countCharacters_fromCodePoints.
  - exact ClassifierFacts.countCharacters_all_full.
  - exact ClassifierFacts.countCharacters_ascii.
  - exact ClassifierFacts.countCharacters_nil.
Qed.

(** Claim C9.  Every iterated code point is counted once: the two counts
    add up to the number of code points of the text, not to its number of
    UTF-16 code units, and an astral character such as an emoji adds
    exactly one to [halfWidth]. *)
Theorem C9_counts_sum_to_code_points :
  (forall text : jsstring,
     (fullWidth (countCharacters text) + halfWidth (countCharacters text)
      = length (stringIterator text))%nat)
  /\ (forall cps : list Z, Forall isScalarValue cps ->
        (fullWidth (countCharacters (fromCodePoints cps))
         + halfWidth (countCharacters (fromCodePoints cps))
         = length cps)%nat)
  /\ (forall (cps1 cps2 : list Z) (cp : Z),
        Forall isScalarValue cps1 -> Forall isScalarValue cps2 ->
        isAstral cp ->
        strlen (fromCodePoints (cps1 ++ cp :: cps2))
        = S (S (strlen (fromCodePoints (cps1 ++ cps2))))
        /\ fullWidth (countCharacters (fromCodePoints (cps1 ++ cp :: cps2)))
           = fullWidth (countCharacters (fromCodePoints (cps1 ++ cps2)))
        /\ halfWidth (countCharacters (fromCodePoints (cps1 ++ cp :: cps2)))
           = S (halfWidth (countCharacters (fromCodePoints (cps1 ++ cps2))))).
Proof.
  split; [| split].
  - intros text. unfold countCharacters.
    rewrite ClassifierFacts.fold_countStep_sum. reflexivity.
  - intros cps Hcps. unfold countCharacters.
    rewrite ClassifierFacts.fold_countStep_sum.
    rewrite JSFacts.stringIterator_fromCodePoints by assumption.
    rewrite length_map. reflexivity.
  - intros cps1 cps2 cp H1 H2 Hcp.
    assert (Hs : isScalarValue cp) by (unfold isAstral, isScalarValue in *; lia).
    assert (Hout : ~ fullWidthCodePoint cp)
      by (unfold isAstral, fullWidthCodePoint in *; lia).
    split.
    + unfold fromCodePoints, strlen.
      rewrite !flat_map_app, !length_app. cbn [flat_map].
      rewrite length_app.
      assert (Hlen : length (utf16Encode cp) = 2%nat).
      { unfold utf16Encode.
        destruct (Z.ltb_spec cp 0x10000); [unfold isAstral in Hcp; lia|].
        reflexivity. }
      rewrite Hlen. lia.
    + rewrite !ClassifierFacts.countCharacters_fromCodePoints
        by (apply Forall_app; split; [assumption|]; try constructor; assumption).
      cbn [fullWidth halfWidth].
      rewrite !filter_app, !filter_cons, !length_app.
      destruct (decide (fullWidthCodePoint cp)); [contradiction|].
      destruct (decide (~ fullWidthCodePoint cp)); [|contradiction].
      cbn [length]. split; lia.
Qed.

End ClassifierClaims.

Module ClassifierWitnesses.
Import JS Classifier.

Lemma C4_witness :
  (isScalarValue 0x1F600
   /\ countCharacters (utf16Encode 0x1F600) = mkCounts 0 1)
  /\ (Forall isScalarValue [0x3042; 0x30AB; 0x6F22; 0x41; 0x1F600]
      /\ countCharacters (fromCodePoints [0x3042; 0x30AB; 0x6F22; 0x41; 0x1F600])
         = mkCounts 3 2)
  /\ (Forall fullWidthCodePoint [0x3042; 0x30AB; 0x6F22]
      /\ countCharacters [0x3042; 0x30AB; 0x6F22] = mkCounts 3 0)
  /\ (Forall isAscii [0x41; 0x62; 0x20; 0x39]
      /\ countCharacters [0x41; 0x62; 0x20; 0x39] = mkCounts 0 4).
Proof.
  assert (S1 : isScalarValue 0x1F600) by (unfold isScalarValue; lia).
  assert (S2 : Forall isScalarValue [0x3042; 0x30AB; 0x6F22; 0x41; 0x1F600])
    by (repeat constructor; unfold isScalarValue; lia).
  assert (S3 : Forall fullWidthCodePoint [0x3042; 0x30AB; 0x6F22])
    by (repeat constructor; unfold fullWidthCodePoint; lia).
  assert (S4 : Forall isAscii [0x41; 0x62; 0x20; 0x39])
    by (repeat constructor; unfold isAscii; lia).
  destruct ClassifierClaims.C4_countCharacters_three_ranges
    as (T1 & T2 & T3 & T4 & _).
  exact (conj (conj S1 (T1 _ S1))
          (conj (conj S2 (T2 _ S2))
             (conj (conj S3 (T3 _ S3)) (conj S4 (T4 _ S4))))).
Defined.

Lemma C9_witness :
  (Forall isScalarValue [0x3042; 0x1F600; 0x41]
   /\ Nat.add
        (fullWidth (countCharacters (fromCodePoints [0x3042; 0x1F600; 0x41])))
        (halfWidth (countCharacters (fromCodePoints [0x3042; 0x1F600; 0x41])))
      = 3%nat)
  /\ (Forall isScalarValue [0x3042] /\ Forall isScalarValue [0x41]
      /\ isAstral 0x1F600
      /\ strlen (fromCodePoints ([0x3042] ++ 0x1F600 :: [0x41])) = 4%nat
      /\ fullWidth (countCharacters (fromCodePoints ([0x3042] ++ 0x1F600 :: [0x41])))
         = 1%nat
      /\ halfWidth (countCharacters (fromCodePoints ([0x3042] ++ 0x1F600 :: [0x41])))
         = 2%nat).
Proof.
  assert (S1 : Forall isScalarValue [0x3042; 0x1F600; 0x41])
    by (repeat constructor; unfold isScalarValue; lia).
  assert (S2 : Forall isScalarValue [0x3042])
    by (repeat constructor; unfold isScalarValue; lia).
  assert (S3 : Forall isScalarValue [0x41])
    by (repeat constructor; unfold isScalarValue; lia).
  assert (S4 : isAstral 0x1F600) by (unfold isAstral; lia).
  destruct ClassifierClaims.C9_counts_sum_to_code_points as (_ & T2 & T3).
  exact (conj (conj S1 (T2 _ S1))
          (conj S2 (conj S3 (conj S4 (T3 _ _ _ S2 S3 S4))))).
Defined.

End ClassifierWitnesses.

(* ===================================================================== *)
(** ** The measuring loop *)
(* ===================================================================== *)

Module DomFacts.
Import Dom.

Lemma gt_true (a b : Q) : gt a b = true <-> (b < a)%Q.
Proof.
  unfold gt. rewrite negb_true_iff. split.
  - intros H. apply Qnot_le_lt. intros Hle.
    apply Qle_bool_iff in Hle. congruence.
  - intros H. destruct (Qle_bool a b) eqn:E; [|reflexivity].
    apply Qle_bool_iff in E. exfalso. exact (Qlt_not_le _ _ H E).
Qed.

Lemma gt_false (a b : Q) : gt a b = false <-> (a <= b)%Q.
Proof.
  unfold gt. rewrite negb_false_iff. apply Qle_bool_iff.
Qed.

Section Loop.
Variable render : jsstring -> Q.

Lemma measureLines_cons (line : jsstring) (lines : list jsstring)
    (el : Span) (m : Q) :
  measureLines render (line :: lines) el m
  = measureLines render lines
      (mkSpan line (lineAccesses line ++ accesses el))
      (if gt (render line) m then render line else m).
Proof. reflexivity. Qed.

(** The loop returns an upper bound of its start value and of every line's
    width, and this bound is the start value or the width of some line. *)
Lemma measureLines_bounds (lines : list jsstring) (el : Span) (m : Q) :
  let w := fst (measureLines render lines el m) in
  (m <= w)%Q
  /\ (forall line, In line lines -> (render line <= w)%Q)
  /\ (w = m \/ exists line, In line lines /\ w = render line).
Proof.
  revert el m. induction lines as [| line lines IH]; intros el m.
  - cbn. split; [apply Qle_refl | split; [intros ? [] | now left]].
  - rewrite measureLines_cons. cbn zeta.
    set (m' := if gt (render line) m then render line else m).
    specialize (IH (mkSpan line (lineAccesses line ++ accesses el)) m').
    cbn zeta in IH. destruct IH as (Hm & Hall & Hwit).
    assert (Hmm : (m <= m')%Q /\ (render line <= m')%Q).
    { subst m'. destruct (gt (render line) m) eqn:E.
      - apply gt_true in E. split; [now apply Qlt_le_weak | apply Qle_refl].
      - apply gt_false in E. split; [apply Qle_refl | assumption]. }
    destruct Hmm as [Hm1 Hm2].
    split; [eapply Qle_trans; eassumption|].
    split.
    + intros l [<- | Hl]; [eapply Qle_trans; eassumption | now apply Hall].
    + destruct Hwit as [Hw | (l & Hl & Hw)].
      * rewrite Hw. subst m'. destruct (gt (render line) m).
        -- right. exists line. split; [now left | reflexivity].
        -- now left.
      * right. exists l. split; [now right | assumption].
Qed.

(** What the loop leaves in the span. *)
Lemma measureLines_accesses (lines : list jsstring) (el : Span) (m : Q) :
  accesses (snd (measureLines render lines el m))
  = rev (flat_map (fun line => [SetTextContent line; GetBoundingClientRect]) lines)
    ++ accesses el.
Proof.
  revert el m. induction lines as [| line lines IH]; intros el m.
  - reflexivity.
  - rewrite measureLines_cons, IH. cbn [flat_map accesses app rev].
    rewrite <- !app_assoc. reflexivity.
Qed.

(** With non-negative widths and at least one line, the result is the
    width of a widest line. *)
Lemma measureLines_widest (lines : list jsstring) (el : Span) :
  lines <> [] ->
  (forall line, In line lines -> (0 <= render line)%Q) ->
  let w := fst (measureLines render lines el 0%Q) in
  (forall line, In line lines -> (render line <= w)%Q)
  /\ (exists line, In line lines /\ (w == render line)%Q).
Proof.
  intros Hne Hpos.
  destruct (measureLines_bounds lines el 0%Q) as (H0 & Hall & Hwit).
  cbn zeta in *. split; [assumption|].
  destruct Hwit as [Hw | (l & Hl & Hw)].
  - destruct lines as [| l ls]; [contradiction|].
    exists l. split; [now left|]. rewrite Hw.
    apply Qle_antisym; [apply Hpos; now left|].
    rewrite <- Hw. apply Hall. now left.
  - exists l. split; [assumption|]. now rewrite Hw.
Qed.

End Loop.

End DomFacts.

(* ===================================================================== *)
(** ** The single-field view: measuring passes *)
(* ===================================================================== *)

Module SingleFieldFacts.
Import SingleField.

Section WithRender.
Variable render : jsstring -> Q.

Lemma measureReference_nonneg_single (st : State) :
  0 <= referenceCharCount st ->
  exists st1, measureReference render st = inr st1 /\ Spec.singleReferenceOnly st st1.
Proof.
  intros Hc. unfold measureReference, referenceText.
  rewrite JSFacts.repeat_nonneg by assumption.
  destruct (referenceMeasurementRef st) as [el |]; cbn.
  - eexists; split; [reflexivity | constructor].
  - eexists; split; [reflexivity | constructor].
Qed.

(** A failed pass has changed nothing. *)
Lemma measureWidth_rejected_single (st st' : State) (e : JS.Error) :
  measureWidth render st = Rejected e st' -> st' = st /\ referenceCharCount st < 0.
Proof.
  unfold measureWidth. destruct (measureReference render st) as [e' | st1] eqn:E.
  - intros [= _ <-]. split; [reflexivity|].
    destruct (Z.lt_ge_cases (referenceCharCount st) 0) as [|Hge]; [assumption|].
    destruct (measureReference_nonneg_single st Hge) as (? & E' & _). congruence.
  - destruct (measurementRef st1); [destruct (JS.truthy _)|];
      try destruct (Dom.measureLines _ _ _ _); discriminate.
Qed.

(** A pass leaves the text, the count, the flag and the console alone. *)
Lemma measureWidth_frame_single (st : State) :
  let st' := stateOf (measureWidth render st) in
  inputText st' = inputText st
  /\ referenceCharCount st' = referenceCharCount st
  /\ fontLoaded st' = fontLoaded st
  /\ consoleErrors st' = consoleErrors st.
Proof.
  unfold measureWidth, measureReference.
  destruct (referenceMeasurementRef st) as [el |];
    [destruct (referenceText st) |]; cbn;
    repeat match goal with
      | |- context [match ?x with _ => _ end] =>
          match type of x with
          | option _ => destruct x
          | bool => destruct x
          | prod _ _ => destruct x
          end; cbn
      end; auto.
Qed.

Lemma measureWidth_nonneg (st : State) :
  0 <= referenceCharCount st ->
  exists st', measureWidth render st = Fulfilled st'.
Proof.
  intros Hc. destruct (measureWidth render st) as [st' | e st'] eqn:E.
  - eauto.
  - apply measureWidth_rejected_single in E. lia.
Qed.

(** An empty text: the width is 0 and the field's span is not touched. *)
Lemma measureWidth_empty (st : State) :
  inputText st = [] ->
  0 <= referenceCharCount st ->
  exists st', measureWidth render st = Fulfilled st'
    /\ inputWidth st' = 0%Q
    /\ measurementRef st' = measurementRef st.
Proof.
  intros Ht Hc. unfold measureWidth.
  destruct (measureReference_nonneg_single st Hc) as (st1 & -> & Hst1).
  assert (Hsame : inputText st1 = [] /\ measurementRef st1 = measurementRef st)
    by (destruct Hst1; auto).
  destruct Hsame as [Ht1 Hm1]. rewrite Ht1. cbn [JS.truthy].
  destruct (measurementRef st1) as [el |] eqn:Em;
    (eexists; split; [reflexivity|]; cbn; rewrite ?Em; auto).
Qed.

(** A text that is not empty, with the span mounted: the width is the
    result of the loop over the lines of the text. *)
Lemma measureWidth_lines (st : State) (el : Dom.Span) :
  measurementRef st = Some el ->
  inputText st <> [] ->
  0 <= referenceCharCount st ->
  exists st', measureWidth render st = Fulfilled st'
    /\ inputWidth st'
       = fst (Dom.measureLines render (JS.split (inputText st)) el 0%Q)
    /\ measurementRef st'
       = Some (snd (Dom.measureLines render (JS.split (inputText st)) el 0%Q)).
Proof.
  intros Hm Ht Hc. unfold measureWidth.
  destruct (measureReference_nonneg_single st Hc) as (st1 & -> & Hst1).
  assert (Hsame : inputText st1 = inputText st /\ measurementRef st1 = Some el)
    by (destruct Hst1; auto).
  destruct Hsame as [Ht1 Hm1]. rewrite Hm1, Ht1.
  destruct (inputText st) as [| u s] eqn:Es; [contradiction|]. cbn [JS.truthy].
  destruct (Dom.measureLines render (JS.split (u :: s)) el 0%Q) as [w el'].
  eexists; split; [reflexivity|]. cbn. auto.
Qed.

(** With the reference span mounted, a pass renders as many reference
    characters as the count says. *)
Lemma measureWidth_reference (st : State) (el : Dom.Span) :
  referenceMeasurementRef st = Some el ->
  0 <= referenceCharCount st ->
  exists st', measureWidth render st = Fulfilled st'
    /\ referenceWidth st'
       = render (concat (List.repeat [HIRAGANA_A]
                           (Z.to_nat (referenceCharCount st)))).
Proof.
  intros Hr Hc. unfold measureWidth, measureReference, referenceText.
  rewrite Hr, JSFacts.repeat_nonneg by assumption. cbn.
  destruct (measurementRef st) as [el0 |]; [destruct (JS.truthy _)|];
    try destruct (Dom.measureLines _ _ _ _);
    (eexists; split; reflexivity).
Qed.

End WithRender.

End SingleFieldFacts.

(* ===================================================================== *)
(** ** The multi-field view: measuring passes *)
(* ===================================================================== *)

Module MultiFieldFacts.
Import MultiField.

Lemma at_index_Some {A : Type} (l : list A) (index : Z) (x : A) :
  at_index l index = Some x -> 0 <= index /\ l !! Z.to_nat index = Some x.
Proof.
  unfold at_index. destruct (Z.ltb_spec index 0); [discriminate|]. auto.
Qed.

Lemma at_index_None {A : Type} (l : list A) (index : Z) :
  at_index l index = None <-> index < 0 \/ Z.of_nat (length l) <= index.
Proof.
  unfold at_index. destruct (Z.ltb_spec index 0) as [Hneg | Hpos].
  - split; auto.
  - rewrite lookup_ge_None. lia.
Qed.

Section WithRender.
Variable render : jsstring -> Q.

Lemma measureReference_nonneg (st : State) :
  0 <= referenceCharCount st ->
  exists st1, measureReference render st = inr st1 /\ Spec.referenceOnly st st1.
Proof.
  intros Hc. unfold measureReference, referenceText.
  rewrite JSFacts.repeat_nonneg by assumption.
  destruct (referenceMeasurementRef st) as [el |]; cbn.
  - eexists; split; [reflexivity | constructor].
  - eexists; split; [reflexivity | constructor].
Qed.

Lemma measureReference_inr (st st1 : State) :
  measureReference render st = inr st1 -> Spec.referenceOnly st st1.
Proof.
  unfold measureReference.
  destruct (referenceMeasurementRef st) as [el |].
  - destruct (referenceText st) as [e | txt]; [discriminate|].
    cbn. intros [= <-]. constructor.
  - intros [= <-]. constructor.
Qed.

Lemma referenceOnly_frame (st st1 : State) :
  Spec.referenceOnly st st1 ->
  textAreas st1 = textAreas st
  /\ measurementRefs st1 = measurementRefs st
  /\ referenceCharCount st1 = referenceCharCount st
  /\ fontLoaded st1 = fontLoaded st
  /\ consoleErrors st1 = consoleErrors st.
Proof. intros []; cbn; auto. Qed.

(** A failed pass has changed nothing. *)
Lemma measureWidth_rejected (index : Z) (st st' : State) (e : JS.Error) :
  measureWidth render index st = Rejected e st' ->
  st' = st /\ referenceCharCount st < 0.
Proof.
  unfold measureWidth. destruct (measureReference render st) as [e' | st1] eqn:E.
  - intros [= _ <-]. split; [reflexivity|].
    destruct (Z.lt_ge_cases (referenceCharCount st) 0) as [|Hge]; [assumption|].
    destruct (measureReference_nonneg st Hge) as (? & E' & _). congruence.
  - destruct (at_index (textAreas st1) index); discriminate.
Qed.

(** The early return: no entry at [index]. *)
Lemma measureWidth_missing (index : Z) (st : State) :
  at_index (textAreas st) index = None ->
  0 <= referenceCharCount st ->
  exists st', measureWidth render index st = Fulfilled st' /\ Spec.referenceOnly st st'.
Proof.
  intros Hnone Hc. unfold measureWidth.
  destruct (measureReference_nonneg st Hc) as (st1 & -> & Hst1).
  destruct (referenceOnly_frame _ _ Hst1) as (-> & _).
  rewrite Hnone. eauto.
Qed.

(** The full pass: an entry at [index]. *)
Lemma measureWidth_present (index : Z) (st : State) (ta : TextAreaData) :
  at_index (textAreas st) index = Some ta ->
  0 <= referenceCharCount st ->
  exists st1, Spec.referenceOnly st st1
    /\ measureWidth render index st
       = Fulfilled (measureField render index ta st1).
Proof.
  intros Hsome Hc. unfold measureWidth.
  destruct (measureReference_nonneg st Hc) as (st1 & -> & Hst1).
  destruct (referenceOnly_frame _ _ Hst1) as (-> & _).
  rewrite Hsome. eauto.
Qed.

Lemma measureField_eq (index : Z) (ta : TextAreaData) (st : State) :
  measureField render index ta st
  = set_textAreas
      (<[Z.to_nat index := Spec.measured render index ta st]> (textAreas st))
      (set_measurementRefs (snd (measureSpan render index ta st)) st).
Proof.
  unfold measureField, Spec.measured.
  destruct (measureSpan render index ta st) as [w refs]. reflexivity.
Qed.

Lemma measureField_frame (index : Z) (ta : TextAreaData) (st : State) :
  let st' := measureField render index ta st in
  referenceCharCount st' = referenceCharCount st
  /\ fontLoaded st' = fontLoaded st
  /\ consoleErrors st' = consoleErrors st
  /\ length (textAreas st') = length (textAreas st).
Proof.
  cbn zeta. rewrite measureField_eq. cbn. rewrite length_insert. auto.
Qed.

(** A pass leaves the count, the flag, the console and the number of text
    areas alone, whether it is fulfilled or rejected. *)
Lemma measureWidth_frame (index : Z) (st : State) :
  let st' := stateOf (measureWidth render index st) in
  referenceCharCount st' = referenceCharCount st
  /\ fontLoaded st' = fontLoaded st
  /\ consoleErrors st' = consoleErrors st
  /\ length (textAreas st') = length (textAreas st).
Proof.
  cbn zeta. unfold measureWidth, measureReference.
  assert (F : forall st1, Spec.referenceOnly st st1 ->
    let st' := stateOf
      match at_index (textAreas st1) index with
      | Some textarea => Fulfilled (measureField render index textarea st1)
      | None => Fulfilled st1
      end in
    referenceCharCount st' = referenceCharCount st
    /\ fontLoaded st' = fontLoaded st
    /\ consoleErrors st' = consoleErrors st
    /\ length (textAreas st') = length (textAreas st)).
  { intros st1 H1. destruct (referenceOnly_frame _ _ H1) as (Ha & _ & Hc & Hf & He).
    destruct (at_index (textAreas st1) index) as [ta |]; cbn.
    - destruct (measureField_frame index ta st1) as (-> & -> & -> & ->).
      rewrite Ha. auto.
    - rewrite Ha. auto. }
  destruct (referenceMeasurementRef st) as [el |].
  - destruct (referenceText st) as [e | txt]; cbn [stateOf]; [auto|].
    cbn. apply (F _ (Spec.reference_measured st _ _)).
  - apply (F _ (Spec.reference_same st)).
Qed.

(** *** The overflow flag *)

Lemma measured_flag (index : Z) (ta : TextAreaData) (st : State) :
  Spec.flagMatches (referenceCharCount st) (Spec.measured render index ta st).
Proof.
  unfold Spec.flagMatches, Spec.measured, theoreticalReferenceWidth, EM_TO_PX.
  cbn [exceedsReference width].
  rewrite (Z.mul_comm 16). split.
  - apply DomFacts.gt_true.
  - intros Heq. apply DomFacts.gt_false. rewrite Heq. apply Qle_refl.
Qed.

Lemma measureWidth_textAreas (index : Z) (st : State) :
  0 <= referenceCharCount st ->
  textAreas (stateOf (measureWidth render index st))
  = match at_index (textAreas st) index with
    | Some ta =>
        <[Z.to_nat index :=
            Spec.measured render index ta
              (Spec.afterReference render st)]>
          (textAreas st)
    | None => textAreas st
    end.
Proof.
  intros Hc. destruct (at_index (textAreas st) index) as [ta |] eqn:E.
  - unfold measureWidth, Spec.afterReference.
    destruct (measureReference_nonneg st Hc) as (st1 & -> & Hst1).
    destruct (referenceOnly_frame _ _ Hst1) as (Ha & _).
    rewrite Ha, E. cbn [stateOf]. rewrite measureField_eq. cbn. now rewrite Ha.
  - destruct (measureWidth_missing index st E Hc) as (st' & -> & Hst').
    cbn [stateOf]. now destruct (referenceOnly_frame _ _ Hst') as (-> & _).
Qed.

Lemma measureWidth_flag_pres (index : Z) (st : State) (j : nat) :
  0 <= referenceCharCount st ->
  Spec.flagOkAt st j -> Spec.flagOkAt (stateOf (measureWidth render index st)) j.
Proof.
  intros Hc Hok ta. 
  destruct (measureWidth_frame index st) as (-> & _).
  rewrite measureWidth_textAreas by assumption.
  destruct (at_index (textAreas st) index) as [ta0 |] eqn:E; [|apply Hok].
  destruct (decide (Z.to_nat index = j)) as [<- | Hne].
  - apply at_index_Some in E. destruct E as [_ E].
    rewrite list_lookup_insert_eq by (eapply lookup_lt_Some; eassumption).
    intros [= <-].
    unfold Spec.afterReference.
    destruct (measureReference_nonneg st Hc) as (st1 & -> & Hst1).
    destruct (referenceOnly_frame _ _ Hst1) as (_ & _ & <- & _).
    apply measured_flag.
  - rewrite list_lookup_insert_ne by assumption. apply Hok.
Qed.

Lemma measureWidth_flag_at (index : Z) (st : State) :
  0 <= referenceCharCount st ->
  0 <= index ->
  Spec.flagOkAt (stateOf (measureWidth render index st)) (Z.to_nat index).
Proof.
  intros Hc Hi ta.
  destruct (measureWidth_frame index st) as (-> & _).
  rewrite measureWidth_textAreas by assumption.
  destruct (at_index (textAreas st) index) as [ta0 |] eqn:E.
  - apply at_index_Some in E. destruct E as [_ E].
    rewrite list_lookup_insert_eq by (eapply lookup_lt_Some; eassumption).
    intros [= <-].
    unfold Spec.afterReference.
    destruct (measureReference_nonneg st Hc) as (st1 & -> & Hst1).
    destruct (referenceOnly_frame _ _ Hst1) as (_ & _ & <- & _).
    apply measured_flag.
  - unfold at_index in E. destruct (Z.ltb_spec index 0); [lia|]. now rewrite E.
Qed.

Lemma measureEach_flags (indices : list Z) (st : State) :
  0 <= referenceCharCount st ->
  Forall (fun index => 0 <= index) indices ->
  let st' := fst (measureEach render indices st) in
  referenceCharCount st' = referenceCharCount st
  /\ length (textAreas st') = length (textAreas st)
  /\ snd (measureEach render indices st) = []
  /\ forall j, Spec.flagOkAt st j \/ In (Z.of_nat j) indices -> Spec.flagOkAt st' j.
Proof.
  intros Hc Hpos. revert st Hc.
  induction Hpos as [| index rest Hi _ IH]; intros st Hc; cbn [measureEach].
  - cbn. split; [reflexivity | split; [reflexivity | split; [reflexivity|]]].
    intros j [H | []]. exact H.
  - destruct (measureWidth_frame index st) as (Hcount & _ & _ & Hlen).
    assert (Herr : errorsOf (measureWidth render index st) = []).
    { destruct (measureWidth render index st) as [? | e s'] eqn:E; [reflexivity|].
      apply measureWidth_rejected in E. lia. }
    specialize (IH (stateOf (measureWidth render index st))).
    rewrite Hcount in IH. specialize (IH Hc).
    destruct (measureEach render rest (stateOf (measureWidth render index st)))
      as [st' errs].
    cbn [fst snd] in *. destruct IH as (IHc & IHl & IHe & IHf).
    rewrite Herr, IHe.
    split; [assumption | split; [congruence | split; [reflexivity|]]].
    intros j [Hok | [Hj | Hj]]; apply IHf.
    + left. now apply measureWidth_flag_pres.
    + left. subst index. rewrite <- (Nat2Z.id j) at 2.
      apply measureWidth_flag_at; [assumption | lia].
    + now right.
Qed.

Lemma indicesOf_nonneg (st : State) :
  Forall (fun index => 0 <= index) (indicesOf st).
Proof.
  unfold indicesOf. apply List.Forall_forall. intros i Hi.
  apply in_map_iff in Hi. destruct Hi as (j & <- & _). lia.
Qed.

Lemma indicesOf_In (st : State) (j : nat) :
  (j < length (textAreas st))%nat -> In (Z.of_nat j) (indicesOf st).
Proof.
  intros Hj. unfold indicesOf. apply in_map. apply in_seq. lia.
Qed.

End WithRender.

End MultiFieldFacts.

(* ===================================================================== *)
(** ** The width measurer *)
(* ===================================================================== *)

Module MeasurerClaims.

(** A pass on an empty text, for every layout engine.  The single-field
    view sets the width to 0 and leaves the field's span untouched.  The
    multi-field view has no such shortcut: the empty text is one empty
    line, which is written to the field's span and measured once, and the
    width is that line's rendered width when it is positive and 0
    otherwise; without a span the width is 0. *)
Lemma empty_text_pass (render : jsstring -> Q) :
  (forall st : SingleField.State,
     SingleField.inputText st = [] ->
     0 <= SingleField.referenceCharCount st ->
     exists st',
       SingleField.measureWidth render st = SingleField.Fulfilled st'
       /\ SingleField.inputWidth st' = 0%Q
       /\ SingleField.measurementRef st' = SingleField.measurementRef st)
  /\ (forall (st : MultiField.State) (index : Z) (ta : MultiField.TextAreaData),
        MultiField.at_index (MultiField.textAreas st) index = Some ta ->
        MultiField.text ta = [] ->
        0 <= MultiField.referenceCharCount st ->
        exists st' ta',
          MultiField.measureWidth render index st = MultiField.Fulfilled st'
          /\ MultiField.at_index (MultiField.textAreas st') index = Some ta'
          /\ match mjoin (MultiField.at_index (MultiField.measurementRefs st) index) with
             | Some el =>
                 MultiField.width ta'
                 = (if Dom.gt (render []) 0%Q then render [] else 0%Q)
                 /\ MultiField.at_index (MultiField.measurementRefs st') index
                    = Some (Some (Dom.mkSpan []
                                    (Dom.lineAccesses [] ++ Dom.accesses el)))
             | None =>
                 MultiField.width ta' = 0%Q
                 /\ MultiField.measurementRefs st' = MultiField.measurementRefs st
             end).
Proof.
  split.
  - intros st Ht Hc. now apply SingleFieldFacts.measureWidth_empty.
  - intros st index ta Hta Ht Hc.
    destruct (MultiFieldFacts.measureWidth_present render index st ta Hta Hc)
      as (st1 & Hst1 & ->).
    destruct (MultiFieldFacts.referenceOnly_frame _ _ Hst1) as (Ha & Hr & _).
    destruct (MultiFieldFacts.at_index_Some _ _ _ Hta) as [Hi Hlk].
    rewrite MultiFieldFacts.measureField_eq.
    eexists. exists (Spec.measured render index ta st1).
    split; [reflexivity|]. split.
    + cbn [MultiField.textAreas MultiField.set_textAreas].
      unfold MultiField.at_index. destruct (Z.ltb_spec index 0); [lia|].
      rewrite Ha. apply list_lookup_insert_eq. eapply lookup_lt_Some; eassumption.
    + unfold Spec.measured, MultiField.measureSpan.
      cbn [MultiField.width MultiField.measurementRefs
           MultiField.set_textAreas MultiField.set_measurementRefs].
      rewrite Hr, Ht.
      destruct (MultiField.at_index (MultiField.measurementRefs st) index)
        as [[el |] |] eqn:Eref; cbn [mjoin option_join option_bind mbind].
      * cbn. split; [reflexivity|].
        destruct (MultiFieldFacts.at_index_Some _ _ _ Eref) as [_ Hl].
        unfold MultiField.at_index. destruct (Z.ltb_spec index 0); [lia|].
        apply list_lookup_insert_eq. eapply lookup_lt_Some; eassumption.
      * cbn. auto.
      * cbn. auto.
Qed.

(** Claim C2, at the input where the code departs from it.  The user has
    cleared the text and a pass runs, the layout engine giving an empty
    line no width.  The single-field view stores width 0 and does not
    touch the field's span.  The multi-field view stores width 0 as well,
    but it has written the empty line to the span of the text area and has
    read its geometry: the span is not as it was. *)
Theorem C2_empty_text_multi_field_invokes_span :
  let single :=
    SingleField.stateOf
      (SingleField.measureWidth Spec.monospace16 Scenarios.singleCleared) in
  let multi :=
    MultiField.stateOf
      (MultiField.measureWidth Spec.monospace16 0 Scenarios.multiFirstCleared) in
  (SingleField.inputText Scenarios.singleCleared = []
   /\ SingleField.measurementRef Scenarios.singleCleared
      = Some (Dom.mkSpan [] [])
   /\ SingleField.inputWidth single = 0%Q
   /\ SingleField.measurementRef single = Some (Dom.mkSpan [] []))
  /\ (option_map MultiField.text
        (MultiField.at_index
           (MultiField.textAreas Scenarios.multiFirstCleared) 0) = Some []
      /\ MultiField.at_index
           (MultiField.measurementRefs Scenarios.multiFirstCleared) 0
         = Some (Some (Dom.mkSpan [] []))
      /\ option_map MultiField.width
           (MultiField.at_index (MultiField.textAreas multi) 0) = Some 0%Q
      /\ MultiField.at_index (MultiField.measurementRefs multi) 0
         = Some (Some (Dom.mkSpan []
                         [Dom.GetBoundingClientRect; Dom.SetTextContent []]))
      /\ MultiField.measurementRefs multi
         <> MultiField.measurementRefs Scenarios.multiFirstCleared).
Proof.
  cbn zeta. split.
  - split; [reflexivity|]. split; [reflexivity|]. split; reflexivity.
  - split; [reflexivity|]. split; [reflexivity|]. split; [reflexivity|].
    split; [reflexivity|].
    intros H. apply (f_equal (fun l => l !! 0%nat)) in H.
    vm_compute in H. discriminate H.
Qed.

(** Claim C5.  The measurer splits the text at its line breaks and returns
    the largest of the rendered widths of the lines, as the layout engine
    reports them; lines rendered at 40, 120 and 75 pixels give 120. *)
Theorem C5_widest_line (render : jsstring -> Q) :
  Spec.nonNegative render ->
  (forall (st : SingleField.State) (el : Dom.Span),
     SingleField.measurementRef st = Some el ->
     SingleField.inputText st <> [] ->
     0 <= SingleField.referenceCharCount st ->
     exists st',
       SingleField.measureWidth render st = SingleField.Fulfilled st'
       /\ Spec.linesOf (SingleField.inputText st)
            (JS.split (SingleField.inputText st))
       /\ Spec.widest render (JS.split (SingleField.inputText st))
            (SingleField.inputWidth st')
       /\ (Spec.threeLineWidths render (SingleField.inputText st) ->
           (SingleField.inputWidth st' == 120)%Q))
  /\ (forall (st : MultiField.State) (index : Z) (ta : MultiField.TextAreaData)
             (el : Dom.Span),
        MultiField.at_index (MultiField.textAreas st) index = Some ta ->
        MultiField.at_index (MultiField.measurementRefs st) index
        = Some (Some el) ->
        0 <= MultiField.referenceCharCount st ->
        exists st' ta',
          MultiField.measureWidth render index st = MultiField.Fulfilled st'
          /\ MultiField.at_index (MultiField.textAreas st') index = Some ta'
          /\ Spec.linesOf (MultiField.text ta) (JS.split (MultiField.text ta))
          /\ Spec.widest render (JS.split (MultiField.text ta))
               (MultiField.width ta')
          /\ (Spec.threeLineWidths render (MultiField.text ta) ->
              (MultiField.width ta' == 120)%Q)).
Proof.
  intros Hpos.
  assert (Hthree : forall text w,
            Spec.widest render (JS.split text) w ->
            Spec.threeLineWidths render text -> (w == 120)%Q).
  { intros text w [Hall (l & Hl & Hw)] (l1 & l2 & l3 & -> & N1 & N2 & N3 & W1 & W2 & W3).
    rewrite !JSFacts.split_app_line_feed, JSFacts.split_line in * by assumption.
    pose proof (Hall l2 ltac:(cbn; auto)) as B2.
    destruct Hl as [<- | [<- | [<- | []]]]; lra. }
  split.
  - intros st el Hm Ht Hc.
    destruct (SingleFieldFacts.measureWidth_lines render st el Hm Ht Hc)
      as (st' & E & Hw & _).
    assert (Hwid : Spec.widest render (JS.split (SingleField.inputText st))
                     (SingleField.inputWidth st')).
    { rewrite Hw. apply DomFacts.measureLines_widest;
        [apply JSFacts.split_not_nil | intros; apply Hpos]. }
    exists st'. split; [exact E|]. split; [apply JSFacts.split_linesOf|].
    split; [exact Hwid | now apply Hthree].
  - intros st index ta el Hta Hel Hc.
    destruct (MultiFieldFacts.measureWidth_present render index st ta Hta Hc)
      as (st1 & Hst1 & E).
    destruct (MultiFieldFacts.referenceOnly_frame _ _ Hst1) as (Ha & Hr & _).
    destruct (MultiFieldFacts.at_index_Some _ _ _ Hta) as [Hi Hlk].
    rewrite MultiFieldFacts.measureField_eq in E.
    assert (Hwid : Spec.widest render (JS.split (MultiField.text ta))
                     (MultiField.width (Spec.measured render index ta st1))).
    { unfold Spec.measured, MultiField.measureSpan.
      cbn [MultiField.width]. rewrite Hr, Hel. cbn [mjoin option_join option_bind mbind].
      pose proof (DomFacts.measureLines_widest render
                    (JS.split (MultiField.text ta)) el
                    (JSFacts.split_not_nil _) (fun l _ => Hpos l)) as Hw.
      cbn zeta in Hw.
      destruct (Dom.measureLines render (JS.split (MultiField.text ta)) el 0%Q).
      exact Hw. }
    eexists. exists (Spec.measured render index ta st1).
    split; [exact E|]. split.
    + cbn [MultiField.textAreas MultiField.set_textAreas].
      unfold MultiField.at_index. destruct (Z.ltb_spec index 0); [lia|].
      rewrite Ha. apply list_lookup_insert_eq. eapply lookup_lt_Some; eassumption.
    + split; [apply JSFacts.split_linesOf|].
      split; [exact Hwid | now apply Hthree].
Qed.

Lemma render3_nonNegative : Spec.nonNegative Scenarios.render3.
Proof.
  intros s. unfold Scenarios.render3.
  destruct (length s) as [| [| [| [| n]]]]; discriminate.
Qed.

Lemma render3_threeLines :
  Spec.threeLineWidths Scenarios.render3 Scenarios.threeLines.
Proof.
  exists [0x61], [0x62; 0x62], [0x63; 0x63; 0x63].
  split; [reflexivity|].
  repeat split; try reflexivity;
    cbn; unfold JS.LINE_FEED; intros H; decompose [or] H; discriminate || contradiction.
Qed.

Lemma C5_witness :
  Spec.nonNegative Scenarios.render3
  /\ (SingleField.measurementRef Scenarios.singleThreeLines = Some Dom.mounted
      /\ SingleField.inputText Scenarios.singleThreeLines <> []
      /\ 0 <= SingleField.referenceCharCount Scenarios.singleThreeLines
      /\ exists st',
           SingleField.measureWidth Scenarios.render3 Scenarios.singleThreeLines
           = SingleField.Fulfilled st'
           /\ (SingleField.inputWidth st' == 120)%Q)
  /\ (MultiField.at_index (MultiField.textAreas Scenarios.multiThreeLines) 0
      = Some (MultiField.mkTextArea Scenarios.threeLines 0%Q 0 0 false)
      /\ MultiField.at_index (MultiField.measurementRefs Scenarios.multiThreeLines) 0
         = Some (Some Dom.mounted)
      /\ 0 <= MultiField.referenceCharCount Scenarios.multiThreeLines
      /\ exists st' ta',
           MultiField.measureWidth Scenarios.render3 0 Scenarios.multiThreeLines
           = MultiField.Fulfilled st'
           /\ MultiField.at_index (MultiField.textAreas st') 0 = Some ta'
           /\ (MultiField.width ta' == 120)%Q).
Proof.
  assert (H35 : 0 <= 35) by lia.
  assert (Hne : SingleField.inputText Scenarios.singleThreeLines <> [])
    by discriminate.
  destruct (C5_widest_line Scenarios.render3 render3_nonNegative) as [TS TM].
  split; [exact render3_nonNegative|]. split.
  - split; [reflexivity|]. split; [exact Hne|]. split; [exact H35|].
    destruct (TS Scenarios.singleThreeLines Dom.mounted eq_refl Hne H35)
      as (st' & E & _ & _ & H120).
    exists st'. split; [exact E | exact (H120 render3_threeLines)].
  - split; [reflexivity|]. split; [reflexivity|]. split; [exact H35|].
    destruct (TM Scenarios.multiThreeLines 0 _ Dom.mounted eq_refl eq_refl H35)
      as (st' & ta' & E & Elk & _ & _ & H120).
    exists st', ta'. split; [exact E|]. split; [exact Elk|].
    exact (H120 render3_threeLines).
Defined.

End MeasurerClaims.

(* ===================================================================== *)
(** ** The reference setting and the overflow flag *)
(* ===================================================================== *)

Module ReferenceClaims.

(** Claim C8.  The theoretical reference width is [charCount * EM_TO_PX]
    with [EM_TO_PX = 16] in both views: 16 times the count, always a
    multiple of 16; 35 gives 560 and 1 gives 16. *)
Theorem C8_theoretical_width :
  SingleField.EM_TO_PX = 16 /\ MultiField.EM_TO_PX = 16
  /\ (forall (N : Z) (st : SingleField.State),
        SingleField.theoreticalReferenceWidth
          (SingleField.set_referenceCharCount N st) = 16 * N
        /\ (16 | SingleField.theoreticalReferenceWidth
                   (SingleField.set_referenceCharCount N st)))
  /\ (forall (N : Z) (st : MultiField.State),
        MultiField.theoreticalReferenceWidth
          (MultiField.set_referenceCharCount N st) = 16 * N
        /\ (16 | MultiField.theoreticalReferenceWidth
                   (MultiField.set_referenceCharCount N st)))
  /\ SingleField.theoreticalReferenceWidth SingleField.created = 560
  /\ MultiField.theoreticalReferenceWidth MultiField.created = 560
  /\ SingleField.theoreticalReferenceWidth
       (SingleField.set_referenceCharCount 1 SingleField.created) = 16
  /\ MultiField.theoreticalReferenceWidth
       (MultiField.set_referenceCharCount 1 MultiField.created) = 16.
Proof.
  repeat (split; [reflexivity|]).
  split; [| split; [| repeat split; reflexivity]].
  - intros N st. split; [reflexivity|]. exists N.
    unfold SingleField.theoreticalReferenceWidth, SingleField.EM_TO_PX.
    cbn [SingleField.referenceCharCount SingleField.set_referenceCharCount]. lia.
  - intros N st. split; [reflexivity|]. exists N.
    unfold MultiField.theoreticalReferenceWidth, MultiField.EM_TO_PX.
    cbn [MultiField.referenceCharCount MultiField.set_referenceCharCount]. lia.
Qed.

(** Claim C7.  The handler of the reference count resets a count below 1
    to 1 before it measures, so the count is at least 1 afterwards and the
    theoretical width of a reset count is 16; it raises no error, and a
    count of 1 or more is kept whatever its size. *)
Theorem C7_reference_count_clamp (render : jsstring -> Q) :
  (forall st : SingleField.State,
     exists st',
       SingleField.handleReferenceCharCountChange render st
       = SingleField.Fulfilled st'
       /\ 1 <= SingleField.referenceCharCount st'
       /\ (SingleField.referenceCharCount st < 1 ->
           SingleField.referenceCharCount st' = 1
           /\ SingleField.theoreticalReferenceWidth st' = 16)
       /\ (1 <= SingleField.referenceCharCount st ->
           SingleField.referenceCharCount st' = SingleField.referenceCharCount st)
       /\ (SingleField.referenceCharCount st < 1 ->
           SingleField.referenceMeasurementRef st <> None ->
           SingleField.referenceWidth st' = render [HIRAGANA_A]))
  /\ (forall st : MultiField.State,
        exists st',
          MultiField.handleReferenceCharCountChange render st = (st', [])
          /\ 1 <= MultiField.referenceCharCount st'
          /\ (MultiField.referenceCharCount st < 1 ->
              MultiField.referenceCharCount st' = 1
              /\ MultiField.theoreticalReferenceWidth st' = 16)
          /\ (1 <= MultiField.referenceCharCount st ->
              MultiField.referenceCharCount st' = MultiField.referenceCharCount st)).
Proof.
  split.
  - intros st. unfold SingleField.handleReferenceCharCountChange.
    set (st1 := if SingleField.referenceCharCount st <? 1
                then SingleField.set_referenceCharCount 1 st else st).
    assert (H1 : SingleField.referenceCharCount st1
                 = Z.max 1 (SingleField.referenceCharCount st)).
    { subst st1. destruct (Z.ltb_spec (SingleField.referenceCharCount st) 1); cbn; lia. }
    destruct (SingleFieldFacts.measureWidth_nonneg render st1 ltac:(lia)) as (st' & E).
    pose proof (SingleFieldFacts.measureWidth_frame_single render st1) as F.
    rewrite E in F. cbn in F. destruct F as (_ & Hc & _).
    exists st'. split; [exact E|].
    unfold SingleField.theoreticalReferenceWidth, SingleField.EM_TO_PX.
    rewrite Hc, H1.
    split; [lia | split; [lia | split; [lia|]]].
    intros Hlt Href.
    assert (Hst1 : st1 = SingleField.set_referenceCharCount 1 st).
    { subst st1. destruct (Z.ltb_spec (SingleField.referenceCharCount st) 1);
        [reflexivity | lia]. }
    destruct (SingleField.referenceMeasurementRef st) as [el |] eqn:Er;
      [|contradiction].
    destruct (SingleFieldFacts.measureWidth_reference render st1 el) as (st2 & E2 & Hw).
    { rewrite Hst1. exact Er. }
    { lia. }
    rewrite E in E2. injection E2 as <-.
    rewrite Hw, Hst1. reflexivity.
  - intros st. unfold MultiField.handleReferenceCharCountChange.
    set (st1 := if MultiField.referenceCharCount st <? 1
                then MultiField.set_referenceCharCount 1 st else st).
    assert (H1 : MultiField.referenceCharCount st1
                 = Z.max 1 (MultiField.referenceCharCount st)).
    { subst st1. destruct (Z.ltb_spec (MultiField.referenceCharCount st) 1); cbn; lia. }
    destruct (MultiFieldFacts.measureEach_flags render (MultiField.indicesOf st1) st1
                ltac:(lia) (MultiFieldFacts.indicesOf_nonneg st1))
      as (Hc & _ & Herr & _).
    destruct (MultiField.measureEach render (MultiField.indicesOf st1) st1)
      as [st' errs].
    cbn [fst snd] in *. subst errs.
    exists st'. split; [reflexivity|].
    unfold MultiField.theoreticalReferenceWidth, MultiField.EM_TO_PX.
    rewrite Hc, H1. repeat split; lia.
Qed.

Lemma C7_witness :
  (SingleField.referenceCharCount
     (SingleField.set_referenceCharCount (-5) SingleField.created) < 1
   /\ exists st',
        SingleField.handleReferenceCharCountChange Spec.monospace16
          (SingleField.set_referenceCharCount (-5) SingleField.created)
        = SingleField.Fulfilled st'
        /\ SingleField.referenceCharCount st' = 1
        /\ SingleField.theoreticalReferenceWidth st' = 16)
  /\ (1 <= MultiField.referenceCharCount
             (MultiField.set_referenceCharCount 500 MultiField.created)
      /\ exists st',
           MultiField.handleReferenceCharCountChange Spec.monospace16
             (MultiField.set_referenceCharCount 500 MultiField.created)
           = (st', [])
           /\ MultiField.referenceCharCount st' = 500).
Proof.
  assert (Hlt : -5 < 1) by lia.
  assert (Hge : 1 <= 500) by lia.
  destruct (C7_reference_count_clamp Spec.monospace16) as [TS TM].
  split.
  - split; [exact Hlt|].
    destruct (TS (SingleField.set_referenceCharCount (-5) SingleField.created))
      as (st' & E & _ & Hclamp & _ & _).
    exists st'. split; [exact E | exact (Hclamp Hlt)].
  - split; [exact Hge|].
    destruct (TM (MultiField.set_referenceCharCount 500 MultiField.created))
      as (st' & E & _ & _ & Hkeep).
    exists st'. split; [exact E | exact (Hkeep Hge)].
Defined.

(** Claim C3.  After a measuring pass of a text area its
    [exceedsReference] flag is true exactly when its measured width is
    strictly greater than [charCount * 16], so equal values give false;
    a pass keeps this for the other text areas, after the handler of the
    reference count it holds for every text area, and it holds from the
    initial state on through [onMounted]. *)
Theorem C3_exceedsReference_strict (render : jsstring -> Q) :
  (forall (st : MultiField.State) (index : Z) (ta : MultiField.TextAreaData),
     MultiField.at_index (MultiField.textAreas st) index = Some ta ->
     0 <= MultiField.referenceCharCount st ->
     exists st' ta',
       MultiField.measureWidth render index st = MultiField.Fulfilled st'
       /\ MultiField.at_index (MultiField.textAreas st') index = Some ta'
       /\ MultiField.theoreticalReferenceWidth st'
          = MultiField.referenceCharCount st' * 16
       /\ Spec.flagMatches (MultiField.referenceCharCount st') ta')
  /\ (forall (st : MultiField.State) (index : Z) (j : nat),
        0 <= MultiField.referenceCharCount st ->
        Spec.flagOkAt st j ->
        Spec.flagOkAt
          (MultiField.stateOf (MultiField.measureWidth render index st)) j)
  /\ (forall (st : MultiField.State) (j : nat),
        Spec.flagOkAt
          (fst (MultiField.handleReferenceCharCountChange render st)) j)
  /\ (forall j : nat, Spec.flagOkAt (MultiField.mount MultiField.created) j)
  /\ (forall (st : MultiField.State) (fonts : Dom.Settled) (j : nat),
        0 <= MultiField.referenceCharCount st ->
        Spec.flagOkAt st j ->
        Spec.flagOkAt (fst (MultiField.onMounted render fonts st)) j).
Proof.
  split; [| split; [| split; [| split]]].
  - intros st index ta Hta Hc.
    destruct (MultiFieldFacts.measureWidth_present render index st ta Hta Hc)
      as (st1 & Hst1 & E).
    destruct (MultiFieldFacts.referenceOnly_frame _ _ Hst1) as (Ha & _).
    destruct (MultiFieldFacts.at_index_Some _ _ _ Hta) as [Hi Hlk].
    rewrite MultiFieldFacts.measureField_eq in E.
    eexists. exists (Spec.measured render index ta st1).
    split; [exact E|]. split; [| split].
    + cbn [MultiField.textAreas MultiField.set_textAreas].
      unfold MultiField.at_index. destruct (Z.ltb_spec index 0); [lia|].
      rewrite Ha. apply list_lookup_insert_eq. eapply lookup_lt_Some; eassumption.
    + unfold MultiField.theoreticalReferenceWidth, MultiField.EM_TO_PX. lia.
    + exact (MultiFieldFacts.measured_flag render index ta st1).
  - intros st index j Hc Hok. now apply MultiFieldFacts.measureWidth_flag_pres.
  - intros st j. unfold MultiField.handleReferenceCharCountChange.
    set (st1 := if MultiField.referenceCharCount st <? 1
                then MultiField.set_referenceCharCount 1 st else st).
    assert (H1 : 0 <= MultiField.referenceCharCount st1).
    { subst st1. destruct (Z.ltb_spec (MultiField.referenceCharCount st) 1); cbn; lia. }
    destruct (MultiFieldFacts.measureEach_flags render (MultiField.indicesOf st1) st1
                H1 (MultiFieldFacts.indicesOf_nonneg st1))
      as (_ & Hlen & _ & Hflags).
    intros ta Hlk. refine (Hflags j _ ta Hlk). right.
    apply MultiFieldFacts.indicesOf_In. rewrite <- Hlen.
    eapply lookup_lt_Some; eassumption.
  - intros j ta Hlk.
    destruct j as [| [| [| j]]]; cbn in Hlk; try discriminate Hlk;
      injection Hlk as <-;
      (split; [split; [discriminate | intros H; vm_compute in H; discriminate H]
              | reflexivity]).
  - intros st fonts j Hc Hok. destruct fonts; cbn [MultiField.onMounted].
    + set (st1 := MultiField.set_fontLoaded true st).
      destruct (MultiFieldFacts.measureEach_flags render
                  (MultiField.indicesOf st1) st1 Hc
                  (MultiFieldFacts.indicesOf_nonneg st1))
        as (_ & _ & _ & Hflags).
      apply Hflags. left. exact Hok.
    + exact Hok.
Qed.

Lemma C3_witness :
  MultiField.at_index
    (MultiField.textAreas (MultiField.mount MultiField.created)) 1
  = Some (MultiField.sample (KANA10 ++ KANA10 ++ KANA10 ++ AIUEO))
  /\ 0 <= MultiField.referenceCharCount (MultiField.mount MultiField.created)
  /\ exists st' ta',
       MultiField.measureWidth Spec.monospace16 1
         (MultiField.mount MultiField.created)
       = MultiField.Fulfilled st'
       /\ MultiField.at_index (MultiField.textAreas st') 1 = Some ta'
       /\ Spec.flagMatches 35 ta'.
Proof.
  assert (H35 : 0 <= 35) by lia.
  destruct (C3_exceedsReference_strict Spec.monospace16) as (T1 & _).
  split; [reflexivity|]. split; [exact H35|].
  destruct (T1 (MultiField.mount MultiField.created) 1 _ eq_refl H35)
    as (st' & ta' & E & Elk & _ & Hflag).
  exists st', ta'. split; [exact E|]. split; [exact Elk|].
  assert (Hc : MultiField.referenceCharCount st' = 35).
  { injection E as <-. reflexivity. }
  rewrite <- Hc. exact Hflag.
Defined.

(** Claim C10.  With an index that has no text area, [measureWidth] of the
    multi-field view changes at most the reference span and the reference
    width: every text area and every field span is as before, the call is
    fulfilled, and [inputCharCount] is 0 for such an index. *)
Theorem C10_missing_index (render : jsstring -> Q) (st : MultiField.State)
    (index : Z) :
  index < 0 \/ Z.of_nat (length (MultiField.textAreas st)) <= index ->
  (let st' := MultiField.stateOf (MultiField.measureWidth render index st) in
   Spec.referenceOnly st st'
   /\ MultiField.textAreas st' = MultiField.textAreas st
   /\ MultiField.measurementRefs st' = MultiField.measurementRefs st)
  /\ (0 <= MultiField.referenceCharCount st ->
      exists st', MultiField.measureWidth render index st
                  = MultiField.Fulfilled st')
  /\ MultiField.inputCharCount index st = 0%nat.
Proof.
  intros Hidx. apply MultiFieldFacts.at_index_None in Hidx.
  assert (Hret : 0 <= MultiField.referenceCharCount st ->
                 exists st', MultiField.measureWidth render index st
                             = MultiField.Fulfilled st'
                             /\ Spec.referenceOnly st st').
  { intros Hc. now apply MultiFieldFacts.measureWidth_missing. }
  split; [| split].
  - cbn zeta.
    assert (Hro : Spec.referenceOnly st
                    (MultiField.stateOf (MultiField.measureWidth render index st))).
    { unfold MultiField.measureWidth.
      destruct (MultiField.measureReference render st) as [e | st1] eqn:Er.
      - constructor.
      - apply MultiFieldFacts.measureReference_inr in Er.
        destruct (MultiFieldFacts.referenceOnly_frame _ _ Er) as (-> & _).
        rewrite Hidx. exact Er. }
    split; [exact Hro|].
    destruct (MultiFieldFacts.referenceOnly_frame _ _ Hro) as (Ha & Hr & _). auto.
  - intros Hc. destruct (Hret Hc) as (st' & E & _). eauto.
  - unfold MultiField.inputCharCount. now rewrite Hidx.
Qed.

Lemma C10_witness :
  (3 < 0 \/ Z.of_nat (length (MultiField.textAreas
                                (MultiField.mount MultiField.created))) <= 3)
  /\ MultiField.textAreas
       (MultiField.stateOf
          (MultiField.measureWidth Spec.monospace16 3
             (MultiField.mount MultiField.created)))
     = MultiField.textAreas (MultiField.mount MultiField.created)
  /\ MultiField.inputCharCount 3 (MultiField.mount MultiField.created) = 0%nat.
Proof.
  assert (H : 3 < 0 \/ Z.of_nat (length (MultiField.textAreas
                                (MultiField.mount MultiField.created))) <= 3)
    by (right; cbn; lia).
  destruct (C10_missing_index Spec.monospace16
              (MultiField.mount MultiField.created) 3 H) as ((_ & Ha & _) & _ & Hn).
  exact (conj H (conj Ha Hn)).
Defined.

End ReferenceClaims.

(* ===================================================================== *)
(** ** The bars of the single-field view *)
(* ===================================================================== *)

Module BarClaims.
Import SingleField.



End BarClaims.

(* ===================================================================== *)
(** ** Mounting the views when the fonts fail to load *)
(* ===================================================================== *)

Module MountFacts.

(** The single-field view sets the flag and measures on both paths. *)
Lemma single_onMounted_rejected (render : jsstring -> Q)
    (st : SingleField.State) :
  SingleField.onMounted render Dom.RejectedPromise st
  = SingleField.measureWidth render
      (SingleField.set_fontLoaded true (SingleField.console_error st))
  /\ SingleField.fontLoaded
       (SingleField.stateOf
          (SingleField.onMounted render Dom.RejectedPromise st)) = true.
Proof.
  split; [reflexivity|]. cbn [SingleField.onMounted].
  now destruct (SingleFieldFacts.measureWidth_frame_single render
                  (SingleField.set_fontLoaded true (SingleField.console_error st)))
    as (_ & _ & -> & _).
Qed.

(** The multi-field view only sets the flag when the promise is rejected:
    no text area and no span is touched. *)
Lemma multi_onMounted_rejected (render : jsstring -> Q)
    (st : MultiField.State) :
  let st' := fst (MultiField.onMounted render Dom.RejectedPromise st) in
  MultiField.fontLoaded st' = true
  /\ MultiField.textAreas st' = MultiField.textAreas st
  /\ MultiField.measurementRefs st' = MultiField.measurementRefs st
  /\ MultiField.referenceMeasurementRef st' = MultiField.referenceMeasurementRef st
  /\ MultiField.referenceWidth st' = MultiField.referenceWidth st.
Proof. cbn. auto. Qed.

End MountFacts.

Module MountClaims.

(** Claim C1, at the input where the code departs from it.  Both views are
    mounted from their initial state and the font promise is rejected.  The
    single-field view becomes ready and measures: the input width and the
    reference width are set.  The multi-field view becomes ready but does
    not measure: its text areas keep width 0 and counts 0 and its spans are
    untouched, whereas a resolved promise measures all three text areas. *)
Theorem C1_font_load_rejected :
  let single :=
    SingleField.stateOf
      (SingleField.onMounted Spec.monospace16 Dom.RejectedPromise
         (SingleField.mount SingleField.created)) in
  let multi :=
    fst (MultiField.onMounted Spec.monospace16 Dom.RejectedPromise
           (MultiField.mount MultiField.created)) in
  let resolved :=
    fst (MultiField.onMounted Spec.monospace16 Dom.Resolved
           (MultiField.mount MultiField.created)) in
  (SingleField.fontLoaded single = true
   /\ SingleField.inputWidth single = 960%Q
   /\ SingleField.referenceWidth single = 560%Q)
  /\ (MultiField.fontLoaded multi = true
      /\ MultiField.textAreas multi = MultiField.textAreas MultiField.created
      /\ map MultiField.width (MultiField.textAreas multi) = [0%Q; 0%Q; 0%Q]
      /\ MultiField.measurementRefs multi
         = [Some Dom.mounted; Some Dom.mounted; Some Dom.mounted]
      /\ MultiField.referenceWidth multi = 0%Q)
  /\ (MultiField.fontLoaded resolved = true
      /\ map MultiField.width (MultiField.textAreas resolved)
         = [320%Q; 560%Q; 720%Q]
      /\ map MultiField.exceedsReference (MultiField.textAreas resolved)
         = [false; false; true]
      /\ MultiField.referenceWidth resolved = 560%Q).
Proof.
  cbn zeta.
  split; [| split].
  - split; [reflexivity|]. split; vm_compute; reflexivity.
  - repeat split; vm_compute; reflexivity.
  - repeat split; vm_compute; reflexivity.
Qed.

End MountClaims.

(* ===================================================================== *)
(** ** Further facts about strings and the measuring loop *)
(* ===================================================================== *)

Module StringFacts.
Import JS Classifier.

Lemma concat_repeat_singleton (u : Z) (n : nat) :
  concat (List.repeat [u] n) = List.repeat u n.
Proof.
  induction n as [| n IH]; [reflexivity|]. cbn. now rewrite IH.
Qed.

Lemma repeat_referenceString (count : Z) :
  0 <= count ->
  JS.repeat [HIRAGANA_A] count = inr (Observations.referenceString count).
Proof.
  intros H. rewrite JSFacts.repeat_nonneg by assumption.
  unfold Observations.referenceString. now rewrite concat_repeat_singleton.
Qed.

(** The iterator never yields more strings than there are code units. *)
Lemma stringIterator_length_bounded (n : nat) (s : jsstring) :
  (length s <= n)%nat -> (length (stringIterator s) <= length s)%nat.
Proof.
  revert s. induction n as [| n IH]; intros s Hn.
  - destruct s; [cbn; lia | cbn in Hn; lia].
  - destruct s as [| u rest]; [cbn; lia|].
    cbn [length] in Hn. cbn [stringIterator].
    destruct (isHighSurrogate u).
    + destruct rest as [| v rest']; [cbn; lia|].
      destruct (isLowSurrogate v).
      * cbn [length] in *. specialize (IH rest' ltac:(lia)). lia.
      * specialize (IH (v :: rest') ltac:(cbn [length] in *; lia)).
        cbn [length] in *. lia.
    + specialize (IH rest ltac:(lia)). cbn [length]. lia.
Qed.

Lemma stringIterator_length_le (s : jsstring) :
  (length (stringIterator s) <= length s)%nat.
Proof. now apply (stringIterator_length_bounded (length s)). Qed.

Lemma stringIterator_pair (u v : Z) (rest : jsstring) :
  isHighSurrogate u = true -> isLowSurrogate v = true ->
  stringIterator (u :: v :: rest) = [u; v] :: stringIterator rest.
Proof. intros Hu Hv. cbn [stringIterator]. now rewrite Hu, Hv. Qed.

Lemma stringIterator_lone (u v : Z) (rest : jsstring) :
  isLowSurrogate v = false ->
  stringIterator (u :: v :: rest) = [u] :: stringIterator (v :: rest).
Proof.
  intros Hv. cbn [stringIterator].
  destruct (isHighSurrogate u); rewrite ?Hv; reflexivity.
Qed.

Lemma stringIterator_not_high (u : Z) (rest : jsstring) :
  isHighSurrogate u = false ->
  stringIterator (u :: rest) = [u] :: stringIterator rest.
Proof. intros Hu. cbn [stringIterator]. now rewrite Hu. Qed.

(** A line feed always ends the character before it and starts a new one. *)
Lemma stringIterator_line_feed_bounded (n : nat) (s1 s2 : jsstring) :
  (length s1 <= n)%nat ->
  stringIterator (s1 ++ LINE_FEED :: s2)
  = stringIterator s1 ++ [LINE_FEED] :: stringIterator s2.
Proof.
  revert s1. induction n as [| n IH]; intros s1 Hn.
  - destruct s1; [reflexivity | cbn in Hn; lia].
  - destruct s1 as [| u rest]; [reflexivity|].
    cbn [length] in Hn.
    destruct (isHighSurrogate u) eqn:Hu.
    + destruct rest as [| v rest']; [cbn; now rewrite Hu|].
      destruct (isLowSurrogate v) eqn:Hv.
      * cbn [app]. rewrite !stringIterator_pair by assumption.
        cbn [length] in Hn. rewrite (IH rest') by lia. reflexivity.
      * cbn [app]. rewrite !stringIterator_lone by assumption.
        change (v :: rest' ++ LINE_FEED :: s2)
          with ((v :: rest') ++ LINE_FEED :: s2).
        rewrite (IH (v :: rest')) by (cbn [length] in *; lia). reflexivity.
    + cbn [app]. rewrite !stringIterator_not_high by assumption.
      rewrite (IH rest) by lia. reflexivity.
Qed.

Lemma fold_countStep_shift (chars : list jsstring) (acc : Counts) :
  fold_left countStep chars acc
  = mkCounts
      (fullWidth acc + fullWidth (fold_left countStep chars (mkCounts 0 0)))
      (halfWidth acc + halfWidth (fold_left countStep chars (mkCounts 0 0))).
Proof.
  revert acc. induction chars as [| c chars IH]; intros acc; cbn [fold_left].
  - destruct acc; cbn. f_equal; lia.
  - rewrite IH. rewrite (IH (countStep (mkCounts 0 0) c)).
    unfold countStep. destruct (regexTest c); cbn; f_equal; lia.
Qed.

Lemma split_length (s : jsstring) :
  length (split s) = S (Observations.lineFeeds s).
Proof.
  unfold Observations.lineFeeds.
  induction s as [| u s IH]; [reflexivity|].
  cbn [split List.filter]. destruct (u =? LINE_FEED).
  - cbn [length]. now rewrite IH.
  - destruct (split s) as [| l ls]; [discriminate IH|]. exact IH.
Qed.

End StringFacts.

Module LoopFacts.
Import Dom.

Section Loop.
Variable render : jsstring -> Q.

(** The width the loop returns is a function of the lines alone. *)
Lemma measureLines_width (lines : list jsstring) (el : Span) (m : Q) :
  fst (measureLines render lines el m) = Observations.maxLineWidth render lines m.
Proof.
  revert el m. induction lines as [| line lines IH]; intros el m.
  - reflexivity.
  - rewrite DomFacts.measureLines_cons, IH. reflexivity.
Qed.

(** After the loop the span holds the last line. *)
Lemma measureLines_textContent (lines : list jsstring) (line : jsstring)
    (el : Span) (m : Q) :
  textContent (snd (measureLines render (lines ++ [line]) el m)) = line.
Proof.
  revert el m. induction lines as [| l lines IH]; intros el m.
  - reflexivity.
  - cbn [app]. rewrite DomFacts.measureLines_cons. apply IH.
Qed.

Lemma measureLines_accesses_length (lines : list jsstring) (el : Span) (m : Q) :
  length (accesses (snd (measureLines render lines el m)))
  = (2 * length lines + length (accesses el))%nat.
Proof.
  rewrite DomFacts.measureLines_accesses, length_app, length_rev.
  f_equal. induction lines as [| line lines IH]; [reflexivity|].
  cbn [flat_map app length]. rewrite IH. lia.
Qed.

Lemma maxLineWidth_ge (lines : list jsstring) (m : Q) :
  (m <= Observations.maxLineWidth render lines m)%Q.
Proof.
  rewrite <- (measureLines_width lines mounted m).
  apply (DomFacts.measureLines_bounds render lines mounted m).
Qed.

End Loop.

End LoopFacts.

(* ===================================================================== *)
(** ** The single-field view: what a pass stores *)
(* ===================================================================== *)

Module SingleFieldPass.
Import SingleField.

Section WithRender.
Variable render : jsstring -> Q.

(** A pass with a count that is not negative, field by field. *)
Lemma pass_observed (st : State) :
  0 <= referenceCharCount st ->
  exists st',
    measureWidth render st = Fulfilled st'
    /\ inputText st' = inputText st
    /\ referenceCharCount st' = referenceCharCount st
    /\ fontLoaded st' = fontLoaded st
    /\ consoleErrors st' = consoleErrors st
    /\ inputWidth st' = Observations.singleInputWidth render st
    /\ referenceWidth st' = Observations.singleReferenceWidth render st
    /\ Observations.isBound (measurementRef st')
       = Observations.isBound (measurementRef st)
    /\ Observations.isBound (referenceMeasurementRef st')
       = Observations.isBound (referenceMeasurementRef st).
Proof.
  intros Hc.
  unfold measureWidth, measureReference, referenceText,
    Observations.singleInputWidth, Observations.singleReferenceWidth.
  rewrite StringFacts.repeat_referenceString by assumption.
  destruct (referenceMeasurementRef st) as [rel |] eqn:Er; cbn.
  - destruct (measurementRef st) as [el |] eqn:Em.
    + destruct (JS.truthy (inputText st)) eqn:Et.
      * pose proof (LoopFacts.measureLines_width render
                      (JS.split (inputText st)) el 0%Q) as Hw.
        destruct (Dom.measureLines render (JS.split (inputText st)) el 0%Q)
          as [w el'].
        eexists. split; [reflexivity|]. cbn in *. rewrite ?Em, ?Er.
        repeat apply conj; solve [reflexivity | assumption].
      * eexists. split; [reflexivity|]. cbn. rewrite ?Em, ?Er.
        repeat apply conj; solve [reflexivity | assumption].
    + eexists. split; [reflexivity|]. cbn. rewrite ?Em, ?Er.
        repeat apply conj; solve [reflexivity | assumption].
  - destruct (measurementRef st) as [el |] eqn:Em.
    + destruct (JS.truthy (inputText st)) eqn:Et.
      * pose proof (LoopFacts.measureLines_width render
                      (JS.split (inputText st)) el 0%Q) as Hw.
        destruct (Dom.measureLines render (JS.split (inputText st)) el 0%Q)
          as [w el'].
        eexists. split; [reflexivity|]. cbn in *. rewrite ?Em, ?Er.
        repeat apply conj; solve [reflexivity | assumption].
      * eexists. split; [reflexivity|]. cbn. rewrite ?Em, ?Er.
        repeat apply conj; solve [reflexivity | assumption].
    + eexists. split; [reflexivity|]. cbn. rewrite ?Em, ?Er.
        repeat apply conj; solve [reflexivity | assumption].
Qed.

(** The only way a pass fails. *)
Lemma pass_rejected (st : State) (el : Dom.Span) :
  referenceMeasurementRef st = Some el ->
  referenceCharCount st < 0 ->
  measureWidth render st = Rejected JS.RangeError st.
Proof.
  intros Hr Hc. unfold measureWidth, measureReference, referenceText, JS.repeat.
  rewrite Hr. destruct (Z.ltb_spec (referenceCharCount st) 0); [reflexivity | lia].
Qed.

Lemma pass_unbound_reference (st : State) :
  referenceMeasurementRef st = None ->
  exists st', measureWidth render st = Fulfilled st'.
Proof.
  intros Hr. unfold measureWidth, measureReference. rewrite Hr.
  destruct (measurementRef st); [destruct (JS.truthy _)|];
    try destruct (Dom.measureLines _ _ _ _); eauto.
Qed.

(** Logging an error before a pass or after it is the same. *)
Lemma pass_console_error (st : State) :
  Observations.sameButConsole
    (stateOf (measureWidth render (console_error st)))
    (stateOf (measureWidth render st))
  /\ consoleErrors (stateOf (measureWidth render (console_error st)))
     = S (consoleErrors (stateOf (measureWidth render st))).
Proof.
  unfold measureWidth, measureReference, referenceText, Observations.sameButConsole.
  cbn [referenceMeasurementRef console_error referenceCharCount measurementRef
       inputText].
  destruct (referenceMeasurementRef st) as [rel |];
    [destruct (JS.repeat [HIRAGANA_A] (referenceCharCount st)) |];
    cbn;
    try (destruct (measurementRef st) as [el |];
         [destruct (JS.truthy (inputText st));
          [destruct (Dom.measureLines render (JS.split (inputText st)) el 0%Q)|]
         |]);
    cbn; repeat apply conj; solve [reflexivity | assumption].
Qed.

End WithRender.

End SingleFieldPass.

(* ===================================================================== *)
(** ** The multi-field view: what a pass stores *)
(* ===================================================================== *)

Module MultiFieldPass.
Import MultiField.

Section WithRender.
Variable render : jsstring -> Q.

(** A pass is rejected with the state as it was, or it measures the
    reference and then the entry at [index], if there is one. *)
Lemma pass_cases (index : Z) (st : State) :
  (exists e, measureWidth render index st = Rejected e st)
  \/ exists st1,
       Spec.referenceOnly st st1
       /\ measureWidth render index st
          = Fulfilled
              match at_index (textAreas st) index with
              | Some ta => measureField render index ta st1
              | None => st1
              end.
Proof.
  unfold measureWidth.
  destruct (measureReference render st) as [e | st1] eqn:Er.
  - left. eauto.
  - right. exists st1. apply MultiFieldFacts.measureReference_inr in Er.
    split; [exact Er|].
    destruct (MultiFieldFacts.referenceOnly_frame _ _ Er) as (-> & _).
    destruct (at_index (textAreas st) index); reflexivity.
Qed.

Lemma measureSpan_width (index : Z) (ta : TextAreaData) (st : State) :
  0 <= index ->
  fst (measureSpan render index ta st)
  = Observations.widthOf render (Observations.bound st (Z.to_nat index)) (text ta).
Proof.
  intros Hi. unfold measureSpan, Observations.widthOf, Observations.bound, at_index.
  destruct (Z.ltb_spec index 0); [lia|].
  destruct (measurementRefs st !! Z.to_nat index) as [[el |] |];
    cbn [mjoin option_join option_bind mbind]; try reflexivity.
  pose proof (LoopFacts.measureLines_width render (JS.split (text ta)) el 0%Q) as Hw.
  destruct (Dom.measureLines render (JS.split (text ta)) el 0%Q). exact Hw.
Qed.

(** The loop rebinds the span of [index] and touches no other span. *)
Lemma measureSpan_refs (index : Z) (ta : TextAreaData) (st : State) (j : nat) :
  0 <= index ->
  (j <> Z.to_nat index ->
   snd (measureSpan render index ta st) !! j = measurementRefs st !! j)
  /\ Observations.isBound (mjoin (snd (measureSpan render index ta st) !! j))
     = Observations.isBound (mjoin (measurementRefs st !! j)).
Proof.
  intros Hi. unfold measureSpan, at_index.
  destruct (Z.ltb_spec index 0); [lia|].
  destruct (measurementRefs st !! Z.to_nat index) as [[el |] |] eqn:E;
    cbn [mjoin option_join option_bind mbind]; try (split; reflexivity).
  destruct (Dom.measureLines render (JS.split (text ta)) el 0%Q) as [w el'].
  cbn [snd]. split.
  - intros Hne. now rewrite list_lookup_insert_ne by congruence.
  - destruct (decide (Z.to_nat index = j)) as [<- | Hne].
    + rewrite list_lookup_insert_eq by (eapply lookup_lt_Some; eassumption).
      now rewrite E.
    + now rewrite list_lookup_insert_ne by assumption.
Qed.

Lemma bound_isBound (st : State) (j : nat) :
  Observations.bound st j
  = Observations.isBound (mjoin (measurementRefs st !! j)).
Proof.
  unfold Observations.bound.
  destruct (measurementRefs st !! j) as [[el |] |]; reflexivity.
Qed.

Lemma measured_fresh (index : Z) (ta : TextAreaData) (st st1 : State) :
  0 <= index ->
  Spec.referenceOnly st st1 ->
  Spec.measured render index ta st1
  = Observations.freshArea render (referenceCharCount st)
      (Observations.bound st (Z.to_nat index)) ta.
Proof.
  intros Hi Hst1.
  destruct (MultiFieldFacts.referenceOnly_frame _ _ Hst1) as (_ & Hr & Hc & _).
  unfold Spec.measured, Observations.freshArea.
  rewrite measureSpan_width by assumption.
  unfold theoreticalReferenceWidth, EM_TO_PX, countCharacters.
  rewrite Hc, !bound_isBound, Hr. reflexivity.
Qed.

(** A fulfilled pass at an entry: the entry is measured afresh, every
    other entry and every other span is as before. *)
Lemma pass_present (index : Z) (st st' : State) (ta : TextAreaData) :
  at_index (textAreas st) index = Some ta ->
  measureWidth render index st = Fulfilled st' ->
  textAreas st'
  = <[Z.to_nat index :=
        Observations.freshArea render (referenceCharCount st)
          (Observations.bound st (Z.to_nat index)) ta]> (textAreas st)
  /\ referenceCharCount st' = referenceCharCount st
  /\ (forall j, Observations.bound st' j = Observations.bound st j)
  /\ (forall j, j <> Z.to_nat index ->
        measurementRefs st' !! j = measurementRefs st !! j).
Proof.
  intros Hta E.
  destruct (MultiFieldFacts.at_index_Some _ _ _ Hta) as [Hi _].
  destruct (pass_cases index st) as [(e & E') | (st1 & Hst1 & E')];
    rewrite E' in E; [discriminate|].
  rewrite Hta in E. injection E as <-.
  destruct (MultiFieldFacts.referenceOnly_frame _ _ Hst1) as (Ha & Hr & Hc & _).
  rewrite MultiFieldFacts.measureField_eq. cbn.
  rewrite Ha, Hc, (measured_fresh index ta st st1 Hi Hst1).
  split; [reflexivity|]. split; [reflexivity|]. split.
  - intros j. rewrite !bound_isBound. cbn.
    rewrite (proj2 (measureSpan_refs index ta st1 j Hi)). now rewrite Hr.
  - intros j Hne.
    rewrite (proj1 (measureSpan_refs index ta st1 j Hi) Hne). now rewrite Hr.
Qed.

(** A fulfilled pass without an entry changes neither entries nor spans. *)
Lemma pass_missing (index : Z) (st st' : State) :
  at_index (textAreas st) index = None ->
  measureWidth render index st = Fulfilled st' ->
  textAreas st' = textAreas st
  /\ referenceCharCount st' = referenceCharCount st
  /\ measurementRefs st' = measurementRefs st.
Proof.
  intros Hta E.
  destruct (pass_cases index st) as [(e & E') | (st1 & Hst1 & E')];
    rewrite E' in E; [discriminate|].
  rewrite Hta in E. injection E as <-.
  destruct (MultiFieldFacts.referenceOnly_frame _ _ Hst1) as (Ha & Hr & Hc & _).
  auto.
Qed.

Lemma freshArea_text (count : Z) (b : bool) (ta : TextAreaData) :
  text (Observations.freshArea render count b ta) = text ta.
Proof. reflexivity. Qed.

Lemma freshArea_same_text (count : Z) (b : bool) (ta ta' : TextAreaData) :
  text ta' = text ta ->
  Observations.freshArea render count b ta'
  = Observations.freshArea render count b ta.
Proof. intros H. unfold Observations.freshArea. now rewrite H. Qed.

(** One pass per index: afterwards every entry whose position is among
    the indices has been measured afresh, the others are as before. *)
Lemma measureEach_fresh (indices : list Z) (st : State) :
  0 <= referenceCharCount st ->
  Forall (fun index => 0 <= index) indices ->
  let st' := fst (measureEach render indices st) in
  (forall j, Observations.bound st' j = Observations.bound st j)
  /\ forall j ta, textAreas st !! j = Some ta ->
       exists ta', textAreas st' !! j = Some ta'
         /\ text ta' = text ta
         /\ (In (Z.of_nat j) indices ->
             ta' = Observations.freshArea render (referenceCharCount st)
                     (Observations.bound st j) ta)
         /\ (~ In (Z.of_nat j) indices -> ta' = ta).
Proof.
  intros Hc Hpos. revert st Hc.
  induction Hpos as [| index rest Hi _ IH]; intros st Hc; cbn [measureEach].
  - cbn. split; [reflexivity|]. intros j ta Hlk. exists ta.
    split; [assumption|]. split; [reflexivity|]. split; [intros [] | reflexivity].
  - destruct (MultiFieldFacts.measureWidth_frame render index st)
      as (Hcount & _ & _ & _).
    destruct (measureWidth render index st) as [st1 | e st1] eqn:E;
      [| apply MultiFieldFacts.measureWidth_rejected in E; lia].
    cbn [stateOf] in *.
    specialize (IH st1). rewrite Hcount in IH. specialize (IH Hc).
    destruct (measureEach render rest st1) as [st' errs].
    cbn [fst] in *. destruct IH as [IHb IHa].
    assert (Hmid :
      (forall j, Observations.bound st1 j = Observations.bound st j)
      /\ forall j ta, textAreas st !! j = Some ta ->
           textAreas st1 !! j
           = Some (if decide (j = Z.to_nat index)
                   then Observations.freshArea render (referenceCharCount st)
                          (Observations.bound st j) ta
                   else ta)).
    { destruct (at_index (textAreas st) index) as [ta0 |] eqn:Eta.
      - destruct (pass_present index st st1 ta0 Eta E) as (Ha & _ & Hb & _).
        split; [exact Hb|]. intros j ta Hlk. rewrite Ha.
        destruct (MultiFieldFacts.at_index_Some _ _ _ Eta) as [_ Hlk0].
        destruct (decide (j = Z.to_nat index)) as [-> | Hne].
        + rewrite list_lookup_insert_eq by (eapply lookup_lt_Some; eassumption).
          congruence.
        + rewrite list_lookup_insert_ne by congruence. exact Hlk.
      - destruct (pass_missing index st st1 Eta E) as (Ha & _ & Hr).
        split.
        + intros j. unfold Observations.bound. now rewrite Hr.
        + intros j ta Hlk. rewrite Ha.
          destruct (decide (j = Z.to_nat index)) as [-> | Hne]; [|exact Hlk].
          unfold at_index in Eta. destruct (Z.ltb_spec index 0); [lia|].
          congruence. }
    destruct Hmid as [Hb1 Ha1].
    split; [intros j; now rewrite IHb|].
    intros j ta Hlk. specialize (Ha1 j ta Hlk).
    destruct (IHa j _ Ha1) as (ta' & Hlk' & Htext & Hin & Hout).
    exists ta'. split; [exact Hlk'|].
    assert (Htxt : text (if decide (j = Z.to_nat index)
                         then Observations.freshArea render (referenceCharCount st)
                                (Observations.bound st j) ta
                         else ta) = text ta)
      by (destruct (decide (j = Z.to_nat index)); reflexivity).
    split; [congruence|]. split.
    + intros [Hj | Hj].
      * destruct (in_dec Z.eq_dec (Z.of_nat j) rest) as [Hr | Hr].
        -- rewrite (Hin Hr), Hb1. now apply freshArea_same_text.
        -- rewrite (Hout Hr).
           destruct (decide (j = Z.to_nat index)) as [_ | Hne]; [reflexivity|].
           exfalso. apply Hne. subst index. now rewrite Nat2Z.id.
      * rewrite (Hin Hj), Hb1. now apply freshArea_same_text.
    + intros Hnot. rewrite Hout by (intros Hr; apply Hnot; now right).
      destruct (decide (j = Z.to_nat index)) as [-> | _]; [|reflexivity].
      exfalso. apply Hnot. left. lia.
Qed.

(** The span of a bound text area after a pass on it. *)
Lemma measureSpan_bound (index : Z) (ta : TextAreaData) (st : State)
    (el : Dom.Span) :
  at_index (measurementRefs st) index = Some (Some el) ->
  at_index (snd (measureSpan render index ta st)) index
  = Some (Some (snd (Dom.measureLines render (JS.split (text ta)) el 0%Q)))
  /\ fst (measureSpan render index ta st)
     = fst (Dom.measureLines render (JS.split (text ta)) el 0%Q).
Proof.
  intros Hel. unfold measureSpan. rewrite Hel.
  cbn [mjoin option_join option_bind mbind].
  destruct (MultiFieldFacts.at_index_Some _ _ _ Hel) as [Hi Hlk].
  destruct (Dom.measureLines render (JS.split (text ta)) el 0%Q) as [w el'].
  cbn [fst snd]. split; [|reflexivity].
  unfold at_index. destruct (Z.ltb_spec index 0); [lia|].
  apply list_lookup_insert_eq. eapply lookup_lt_Some; eassumption.
Qed.

(** Without a bound span the loop is skipped. *)
Lemma measureSpan_unbound (index : Z) (ta : TextAreaData) (st : State) :
  0 <= index ->
  Observations.bound st (Z.to_nat index) = false ->
  measureSpan render index ta st = (0%Q, measurementRefs st).
Proof.
  intros Hi Hb. unfold measureSpan, at_index.
  destruct (Z.ltb_spec index 0); [lia|].
  unfold Observations.bound in Hb.
  destruct (measurementRefs st !! Z.to_nat index) as [[el |] |];
    [discriminate | reflexivity | reflexivity].
Qed.

(** The reference part of a pass, with the reference span bound. *)
Lemma pass_reference (index : Z) (st : State) (el : Dom.Span) :
  referenceMeasurementRef st = Some el ->
  0 <= referenceCharCount st ->
  exists st',
    measureWidth render index st = Fulfilled st'
    /\ referenceWidth st'
       = render (Observations.referenceString (referenceCharCount st))
    /\ referenceMeasurementRef st'
       = Some (Dom.mkSpan (Observations.referenceString (referenceCharCount st))
                 (Dom.lineAccesses
                    (Observations.referenceString (referenceCharCount st))
                  ++ Dom.accesses el)).
Proof.
  intros Hr Hc. unfold measureWidth, measureReference, referenceText.
  rewrite Hr, StringFacts.repeat_referenceString by assumption. cbn.
  destruct (at_index (textAreas st) index) as [ta |].
  - rewrite MultiFieldFacts.measureField_eq. eexists. split; [reflexivity|].
    cbn. split; reflexivity.
  - eexists. split; [reflexivity|]. cbn. split; reflexivity.
Qed.

(** The handler of the reference count measures every entry afresh
    against the clamped count. *)
Lemma handler_fresh (st : State) :
  let st' := fst (handleReferenceCharCountChange render st) in
  referenceCharCount st' = Z.max 1 (referenceCharCount st)
  /\ (forall j, Observations.bound st' j = Observations.bound st j)
  /\ forall j ta, textAreas st !! j = Some ta ->
       textAreas st' !! j
       = Some (Observations.freshArea render (Z.max 1 (referenceCharCount st))
                 (Observations.bound st j) ta).
Proof.
  unfold handleReferenceCharCountChange.
  set (st1 := if referenceCharCount st <? 1
              then set_referenceCharCount 1 st else st).
  assert (H1 : referenceCharCount st1 = Z.max 1 (referenceCharCount st)
               /\ textAreas st1 = textAreas st
               /\ measurementRefs st1 = measurementRefs st).
  { subst st1. destruct (Z.ltb_spec (referenceCharCount st) 1); cbn;
      repeat split; lia. }
  destruct H1 as (Hc1 & Ha1 & Hr1).
  destruct (MultiFieldFacts.measureEach_flags render (indicesOf st1) st1
              ltac:(lia) (MultiFieldFacts.indicesOf_nonneg st1))
    as (Hc & _ & _ & _).
  destruct (measureEach_fresh (indicesOf st1) st1 ltac:(lia)
              (MultiFieldFacts.indicesOf_nonneg st1)) as (Hb & Hfresh).
  cbn zeta in *.
  assert (Hbound : forall j, Observations.bound st1 j = Observations.bound st j)
    by (intros j; unfold Observations.bound; now rewrite Hr1).
  split; [congruence|]. split; [intros j; now rewrite Hb|].
  intros j ta Hlk. rewrite <- Ha1 in Hlk.
  destruct (Hfresh j ta Hlk) as (ta' & Hlk' & _ & Hin & _).
  rewrite Hlk', Hin, Hc1, Hbound; [reflexivity|].
  apply MultiFieldFacts.indicesOf_In. eapply lookup_lt_Some; eassumption.
Qed.

End WithRender.

End MultiFieldPass.

(* ===================================================================== *)
(** ** Further properties of the classifier and of a measuring pass *)
(* ===================================================================== *)

Module PassProperties.

(** X1.  [countCharacters] counts a line break as one half-width
    character, and the counts of a text are the sums of the counts of its
    two parts around a line break, plus that one. *)
Theorem X1_line_feed_counts_as_half_width (l1 l2 : jsstring) :
  Classifier.countCharacters (l1 ++ JS.LINE_FEED :: l2)
  = Classifier.mkCounts
      (Classifier.fullWidth (Classifier.countCharacters l1)
       + Classifier.fullWidth (Classifier.countCharacters l2))
      (Classifier.halfWidth (Classifier.countCharacters l1) + 1
       + Classifier.halfWidth (Classifier.countCharacters l2)).
Proof.
  unfold Classifier.countCharacters.
  rewrite (StringFacts.stringIterator_line_feed_bounded (length l1)) by lia.
  rewrite fold_left_app. cbn [fold_left].
  rewrite StringFacts.fold_countStep_shift.
  assert (Hlf : forall acc,
            Classifier.countStep acc [JS.LINE_FEED]
            = Classifier.mkCounts (Classifier.fullWidth acc)
                (S (Classifier.halfWidth acc))) by reflexivity.
  rewrite Hlf. cbn [Classifier.fullWidth Classifier.halfWidth]. f_equal; lia.
Qed.

(** X2.  After a pass of the multi-field view on a text area, its two
    counts are those of [countCharacters] on its unchanged text, and their
    sum is at most the character count [inputCharCount] shows (UTF-16 code
    units); the two agree when the text has no high surrogate. *)
Theorem X2_counts_within_inputCharCount (render : jsstring -> Q)
    (st : MultiField.State) (index : Z) (ta : MultiField.TextAreaData) :
  MultiField.at_index (MultiField.textAreas st) index = Some ta ->
  0 <= MultiField.referenceCharCount st ->
  exists st' ta',
    MultiField.measureWidth render index st = MultiField.Fulfilled st'
    /\ MultiField.at_index (MultiField.textAreas st') index = Some ta'
    /\ MultiField.text ta' = MultiField.text ta
    /\ MultiField.fullWidthCount ta'
       = Classifier.fullWidth (Classifier.countCharacters (MultiField.text ta))
    /\ MultiField.halfWidthCount ta'
       = Classifier.halfWidth (Classifier.countCharacters (MultiField.text ta))
    /\ (MultiField.fullWidthCount ta' + MultiField.halfWidthCount ta'
        <= MultiField.inputCharCount index st')%nat
    /\ (Forall (fun u => JS.isHighSurrogate u = false) (MultiField.text ta) ->
        (MultiField.fullWidthCount ta' + MultiField.halfWidthCount ta')%nat
        = MultiField.inputCharCount index st').
Proof.
  intros Hta Hc.
  destruct (MultiFieldFacts.measureWidth_present render index st ta Hta Hc)
    as (st1 & _ & E).
  set (st' := MultiField.measureField render index ta st1) in E.
  destruct (MultiFieldPass.pass_present render index st st' ta Hta E)
    as (Ha & _).
  destruct (MultiFieldFacts.at_index_Some _ _ _ Hta) as [Hi Hlk].
  set (ta' := Observations.freshArea render (MultiField.referenceCharCount st)
                (Observations.bound st (Z.to_nat index)) ta) in Ha.
  assert (Hlk' : MultiField.at_index (MultiField.textAreas st') index = Some ta').
  { unfold MultiField.at_index. destruct (Z.ltb_spec index 0); [lia|].
    rewrite Ha. apply list_lookup_insert_eq. eapply lookup_lt_Some; eassumption. }
  exists st', ta'. split; [exact E|]. split; [exact Hlk'|].
  split; [reflexivity|]. split; [reflexivity|]. split; [reflexivity|].
  unfold MultiField.inputCharCount. rewrite Hlk'.
  cbn [MultiField.text MultiField.fullWidthCount MultiField.halfWidthCount
       Observations.freshArea ta'].
  unfold Classifier.countCharacters, JS.strlen.
  rewrite ClassifierFacts.fold_countStep_sum. cbn [Classifier.fullWidth Classifier.halfWidth].
  split.
  - pose proof (StringFacts.stringIterator_length_le (MultiField.text ta)). lia.
  - intros Hbmp. rewrite JSFacts.stringIterator_bmp by assumption.
    rewrite length_map. lia.
Qed.

Lemma X2_witness :
  exists st' ta',
    MultiField.measureWidth Spec.monospace16 2
      (MultiField.mount MultiField.created) = MultiField.Fulfilled st'
    /\ MultiField.at_index (MultiField.textAreas st') 2 = Some ta'
    /\ MultiField.fullWidthCount ta' = 45%nat
    /\ MultiField.halfWidthCount ta' = 41%nat
    /\ (MultiField.fullWidthCount ta' + MultiField.halfWidthCount ta'
        <= MultiField.inputCharCount 2 st')%nat.
Proof.
  assert (H35 : 0 <= 35) by lia.
  destruct (X2_counts_within_inputCharCount Spec.monospace16
              (MultiField.mount MultiField.created) 2 _ eq_refl H35)
    as (st' & ta' & E & Hlk & _ & Hf & Hh & Hle & _).
  exists st', ta'.
  exact (conj E (conj Hlk (conj Hf (conj Hh Hle)))).
Defined.

Lemma last_line_content (render : jsstring -> Q) (lines : list jsstring)
    (el : Dom.Span) (m : Q) :
  lines <> [] ->
  Dom.textContent (snd (Dom.measureLines render lines el m))
  = List.last lines [].
Proof.
  intros Hne. rewrite (app_removelast_last [] Hne) at 1.
  apply LoopFacts.measureLines_textContent.
Qed.

(** X3.  In both views the width a pass stores for a bound span is the
    largest line width the layout engine gives for the lines of the text,
    whatever the span held before; the pass writes and reads the span once
    per line (one more than there are line feeds) and leaves the last line
    in it. *)
Theorem X3_one_fresh_read_per_line (render : jsstring -> Q) :
  (forall (st : SingleField.State) (el : Dom.Span),
     SingleField.measurementRef st = Some el ->
     SingleField.inputText st <> [] ->
     0 <= SingleField.referenceCharCount st ->
     exists st' el',
       SingleField.measureWidth render st = SingleField.Fulfilled st'
       /\ SingleField.measurementRef st' = Some el'
       /\ SingleField.inputWidth st'
          = Observations.maxLineWidth render
              (JS.split (SingleField.inputText st)) 0%Q
       /\ length (Dom.accesses el')
          = (2 * S (Observations.lineFeeds (SingleField.inputText st))
             + length (Dom.accesses el))%nat
       /\ Dom.textContent el'
          = List.last (JS.split (SingleField.inputText st)) [])
  /\ (forall (st : MultiField.State) (index : Z) (ta : MultiField.TextAreaData)
             (el : Dom.Span),
        MultiField.at_index (MultiField.textAreas st) index = Some ta ->
        MultiField.at_index (MultiField.measurementRefs st) index
        = Some (Some el) ->
        0 <= MultiField.referenceCharCount st ->
        exists st' ta' el',
          MultiField.measureWidth render index st = MultiField.Fulfilled st'
          /\ MultiField.at_index (MultiField.textAreas st') index = Some ta'
          /\ MultiField.at_index (MultiField.measurementRefs st') index
             = Some (Some el')
          /\ MultiField.width ta'
             = Observations.maxLineWidth render
                 (JS.split (MultiField.text ta)) 0%Q
          /\ length (Dom.accesses el')
             = (2 * S (Observations.lineFeeds (MultiField.text ta))
                + length (Dom.accesses el))%nat
          /\ Dom.textContent el'
             = List.last (JS.split (MultiField.text ta)) []).
Proof.
  split.
  - intros st el Hm Ht Hc.
    destruct (SingleFieldFacts.measureWidth_lines render st el Hm Ht Hc)
      as (st' & E & Hw & Hel).
    eexists. eexists. split; [exact E|]. split; [exact Hel|].
    split; [rewrite Hw; apply LoopFacts.measureLines_width|].
    split.
    + rewrite LoopFacts.measureLines_accesses_length, StringFacts.split_length.
      reflexivity.
    + apply last_line_content, JSFacts.split_not_nil.
  - intros st index ta el Hta Hel Hc.
    destruct (MultiFieldFacts.measureWidth_present render index st ta Hta Hc)
      as (st1 & Hst1 & E).
    destruct (MultiFieldFacts.referenceOnly_frame _ _ Hst1) as (Ha & Hr & _).
    destruct (MultiFieldFacts.at_index_Some _ _ _ Hta) as [Hi Hlk].
    rewrite MultiFieldFacts.measureField_eq in E.
    rewrite <- Hr in Hel.
    destruct (MultiFieldPass.measureSpan_bound render index ta st1 el Hel)
      as [Hspan Hwidth].
    eexists. exists (Spec.measured render index ta st1). eexists.
    split; [exact E|]. split; [| split; [| split; [| split]]].
    + cbn [MultiField.textAreas MultiField.set_textAreas].
      unfold MultiField.at_index. destruct (Z.ltb_spec index 0); [lia|].
      rewrite Ha. apply list_lookup_insert_eq. eapply lookup_lt_Some; eassumption.
    + cbn [MultiField.measurementRefs MultiField.set_textAreas
           MultiField.set_measurementRefs]. exact Hspan.
    + unfold Spec.measured. cbn [MultiField.width]. rewrite Hwidth.
      apply LoopFacts.measureLines_width.
    + rewrite LoopFacts.measureLines_accesses_length, StringFacts.split_length.
      reflexivity.
    + apply last_line_content, JSFacts.split_not_nil.
Qed.

Lemma X3_witness :
  exists st' el',
    SingleField.measureWidth Scenarios.render3 Scenarios.singleThreeLines
    = SingleField.Fulfilled st'
    /\ SingleField.measurementRef st' = Some el'
    /\ SingleField.inputWidth st' = 120%Q
    /\ length (Dom.accesses el') = 6%nat
    /\ Dom.textContent el' = [0x63; 0x63; 0x63].
Proof.
  assert (H35 : 0 <= 35) by lia.
  assert (Hne : SingleField.inputText Scenarios.singleThreeLines <> [])
    by discriminate.
  destruct (X3_one_fresh_read_per_line Scenarios.render3) as [TS _].
  destruct (TS Scenarios.singleThreeLines Dom.mounted eq_refl Hne H35)
    as (st' & el' & E & Hel & Hw & Hlen & Htxt).
  exists st', el'. exact (conj E (conj Hel (conj Hw (conj Hlen Htxt)))).
Defined.

(** X4.  A text area whose span is not bound gets width 0: in the
    single-field view whatever the text is, and in the multi-field view
    with the counts still updated, the overflow flag false and the spans
    untouched. *)
Theorem X4_unbound_span_is_width_zero (render : jsstring -> Q) :
  (forall st : SingleField.State,
     SingleField.measurementRef st = None ->
     0 <= SingleField.referenceCharCount st ->
     exists st',
       SingleField.measureWidth render st = SingleField.Fulfilled st'
       /\ SingleField.inputWidth st' = 0%Q
       /\ SingleField.measurementRef st' = None)
  /\ (forall (st : MultiField.State) (index : Z) (ta : MultiField.TextAreaData),
        MultiField.at_index (MultiField.textAreas st) index = Some ta ->
        Observations.bound st (Z.to_nat index) = false ->
        0 <= MultiField.referenceCharCount st ->
        exists st',
          MultiField.measureWidth render index st = MultiField.Fulfilled st'
          /\ MultiField.at_index (MultiField.textAreas st') index
             = Some (MultiField.mkTextArea (MultiField.text ta) 0%Q
                       (Classifier.fullWidth
                          (Classifier.countCharacters (MultiField.text ta)))
                       (Classifier.halfWidth
                          (Classifier.countCharacters (MultiField.text ta)))
                       false)
          /\ MultiField.measurementRefs st' = MultiField.measurementRefs st).
Proof.
  split.
  - intros st Hm Hc.
    destruct (SingleFieldPass.pass_observed render st Hc)
      as (st' & E & _ & _ & _ & _ & Hw & _ & Hb & _).
    exists st'. split; [exact E|]. split.
    + rewrite Hw. unfold Observations.singleInputWidth. now rewrite Hm.
    + rewrite Hm in Hb. destruct (SingleField.measurementRef st');
        [discriminate | reflexivity].
  - intros st index ta Hta Hb Hc.
    destruct (MultiFieldFacts.measureWidth_present render index st ta Hta Hc)
      as (st1 & Hst1 & E).
    destruct (MultiFieldFacts.referenceOnly_frame _ _ Hst1) as (Ha & Hr & Hcc & _).
    destruct (MultiFieldFacts.at_index_Some _ _ _ Hta) as [Hi Hlk].
    assert (Hb1 : Observations.bound st1 (Z.to_nat index) = false)
      by (unfold Observations.bound in *; now rewrite Hr).
    rewrite MultiFieldFacts.measureField_eq in E.
    unfold Spec.measured in E.
    rewrite (MultiFieldPass.measureSpan_unbound render index ta st1 Hi Hb1) in E.
    cbn [fst snd] in E.
    eexists. split; [exact E|]. split.
    + cbn [MultiField.textAreas MultiField.set_textAreas].
      unfold MultiField.at_index. destruct (Z.ltb_spec index 0); [lia|].
      rewrite Ha, list_lookup_insert_eq by (eapply lookup_lt_Some; eassumption).
      do 2 f_equal. apply DomFacts.gt_false.
      unfold MultiField.theoreticalReferenceWidth, MultiField.EM_TO_PX.
      rewrite Hcc. change 0%Q with (inject_Z 0). rewrite <- Zle_Qle. lia.
    + cbn. exact Hr.
Qed.

Lemma X4_witness :
  exists st',
    MultiField.measureWidth Spec.monospace16 1 MultiField.created
    = MultiField.Fulfilled st'
    /\ MultiField.at_index (MultiField.textAreas st') 1
       = Some (MultiField.mkTextArea (KANA10 ++ KANA10 ++ KANA10 ++ AIUEO)
                 0%Q 35 0 false)
    /\ MultiField.measurementRefs st' = [None; None; None].
Proof.
  assert (H35 : 0 <= 35) by lia.
  destruct (X4_unbound_span_is_width_zero Spec.monospace16) as [_ TM].
  destruct (TM MultiField.created 1 _ eq_refl eq_refl H35) as (st' & E & Hlk & Hr).
  exists st'. exact (conj E (conj Hlk Hr)).
Defined.

(** X5.  A pass of the multi-field view on one index leaves every other
    text area and every other span exactly as it was, whether the pass is
    fulfilled or rejected. *)
Theorem X5_other_fields_untouched (render : jsstring -> Q)
    (st : MultiField.State) (index : Z) (j : nat) :
  j <> Z.to_nat index ->
  let st' := MultiField.stateOf (MultiField.measureWidth render index st) in
  MultiField.textAreas st' !! j = MultiField.textAreas st !! j
  /\ MultiField.measurementRefs st' !! j = MultiField.measurementRefs st !! j
  /\ length (MultiField.textAreas st') = length (MultiField.textAreas st).
Proof.
  intros Hne. cbn zeta.
  destruct (MultiFieldPass.pass_cases render index st)
    as [(e & ->) | (st1 & Hst1 & ->)]; cbn [MultiField.stateOf]; [auto|].
  destruct (MultiFieldFacts.referenceOnly_frame _ _ Hst1) as (Ha & Hr & _).
  destruct (MultiField.at_index (MultiField.textAreas st) index) as [ta |] eqn:Eta.
  - destruct (MultiFieldFacts.at_index_Some _ _ _ Eta) as [Hi _].
    rewrite MultiFieldFacts.measureField_eq. cbn.
    rewrite list_lookup_insert_ne by congruence.
    rewrite (proj1 (MultiFieldPass.measureSpan_refs render index ta st1 j Hi) Hne).
    rewrite length_insert, Ha, Hr. auto.
  - rewrite Ha, Hr. auto.
Qed.

Lemma X5_witness :
  MultiField.textAreas
    (MultiField.stateOf
       (MultiField.measureWidth Spec.monospace16 0
          (MultiField.mount MultiField.created))) !! 2%nat
  = MultiField.textAreas (MultiField.mount MultiField.created) !! 2%nat.
Proof.
  assert (Hne : 2%nat <> Z.to_nat 0) by discriminate.
  exact (proj1 (X5_other_fields_untouched Spec.monospace16
                  (MultiField.mount MultiField.created) 0 2 Hne)).
Defined.

(** X6.  Measuring twice is the same as measuring once: a second pass
    stores the same input width and reference width in the single-field
    view, and the same text areas in the multi-field view. *)
Theorem X6_second_pass_changes_nothing (render : jsstring -> Q) :
  (forall st : SingleField.State,
     0 <= SingleField.referenceCharCount st ->
     exists st1 st2,
       SingleField.measureWidth render st = SingleField.Fulfilled st1
       /\ SingleField.measureWidth render st1 = SingleField.Fulfilled st2
       /\ SingleField.inputWidth st2 = SingleField.inputWidth st1
       /\ SingleField.referenceWidth st2 = SingleField.referenceWidth st1)
  /\ (forall (st : MultiField.State) (index : Z),
        0 <= MultiField.referenceCharCount st ->
        exists st1 st2,
          MultiField.measureWidth render index st = MultiField.Fulfilled st1
          /\ MultiField.measureWidth render index st1 = MultiField.Fulfilled st2
          /\ MultiField.textAreas st2 = MultiField.textAreas st1).
Proof.
  split.
  - intros st Hc.
    destruct (SingleFieldPass.pass_observed render st Hc)
      as (st1 & E1 & Ht1 & Hc1 & _ & _ & Hw1 & Hr1 & Hb1 & Hrb1).
    destruct (SingleFieldPass.pass_observed render st1 ltac:(lia))
      as (st2 & E2 & _ & _ & _ & _ & Hw2 & Hr2 & _).
    exists st1, st2. split; [exact E1|]. split; [exact E2|].
    rewrite Hw2, Hr2, Hw1.
    unfold Observations.singleInputWidth, Observations.singleReferenceWidth.
    rewrite Ht1, Hc1. split.
    + destruct (SingleField.measurementRef st1), (SingleField.measurementRef st);
        try discriminate Hb1; reflexivity.
    + rewrite Hr1. unfold Observations.singleReferenceWidth.
      destruct (SingleField.referenceMeasurementRef st1),
        (SingleField.referenceMeasurementRef st);
        try discriminate Hrb1; reflexivity.
  - intros st index Hc.
    destruct (MultiFieldFacts.measureWidth_frame render index st) as (Hc1 & _).
    destruct (MultiField.measureWidth render index st) as [st1 | e st1] eqn:E1;
      [| apply MultiFieldFacts.measureWidth_rejected in E1; lia].
    cbn [MultiField.stateOf] in Hc1.
    destruct (MultiFieldFacts.measureWidth_frame render index st1) as (Hc2 & _).
    destruct (MultiField.measureWidth render index st1) as [st2 | e st2] eqn:E2;
      [| apply MultiFieldFacts.measureWidth_rejected in E2; lia].
    exists st1, st2. split; [reflexivity|]. split; [exact E2|].
    destruct (MultiField.at_index (MultiField.textAreas st) index) as [ta |] eqn:Eta.
    + destruct (MultiFieldPass.pass_present render index st st1 ta Eta E1)
        as (Ha1 & _ & Hb1 & _).
      destruct (MultiFieldFacts.at_index_Some _ _ _ Eta) as [Hi Hlk].
      assert (Eta1 : MultiField.at_index (MultiField.textAreas st1) index
                     = Some (Observations.freshArea render
                               (MultiField.referenceCharCount st)
                               (Observations.bound st (Z.to_nat index)) ta)).
      { unfold MultiField.at_index. destruct (Z.ltb_spec index 0); [lia|].
        rewrite Ha1. apply list_lookup_insert_eq. eapply lookup_lt_Some; eassumption. }
      destruct (MultiFieldPass.pass_present render index st1 st2 _ Eta1 E2)
        as (Ha2 & _).
      rewrite Ha2, Hb1, Hc1.
      rewrite (MultiFieldPass.freshArea_same_text render _ _ _ ta) by reflexivity.
      rewrite Ha1. apply list_insert_insert_eq.
    + destruct (MultiFieldPass.pass_missing render index st st1 Eta E1) as (Ha1 & _).
      assert (Eta1 : MultiField.at_index (MultiField.textAreas st1) index = None)
        by now rewrite Ha1.
      now destruct (MultiFieldPass.pass_missing render index st1 st2 Eta1 E2)
        as (-> & _).
Qed.

Lemma X6_witness :
  exists st1 st2,
    SingleField.measureWidth Spec.monospace16
      (SingleField.mount SingleField.created) = SingleField.Fulfilled st1
    /\ SingleField.measureWidth Spec.monospace16 st1 = SingleField.Fulfilled st2
    /\ SingleField.inputWidth st2 = SingleField.inputWidth st1
    /\ SingleField.referenceWidth st2 = SingleField.referenceWidth st1.
Proof.
  assert (H35 : 0 <= 35) by lia.
  exact (proj1 (X6_second_pass_changes_nothing Spec.monospace16)
           (SingleField.mount SingleField.created) H35).
Defined.

End PassProperties.

(* ===================================================================== *)
(** ** The handlers of the multi-field view *)
(* ===================================================================== *)

Module HandlerProperties.

(** X7.  The handler of the reference count of the multi-field view
    measures every text area afresh: each keeps its text and gets the width
    of its text, the counts of its text and the flag for the count clamped
    to at least 1. *)
Theorem X7_count_change_remeasures_all (render : jsstring -> Q)
    (st : MultiField.State) (j : nat) (ta : MultiField.TextAreaData) :
  MultiField.textAreas st !! j = Some ta ->
  let st' := fst (MultiField.handleReferenceCharCountChange render st) in
  MultiField.textAreas st' !! j
  = Some (Observations.freshArea render
            (Z.max 1 (MultiField.referenceCharCount st))
            (Observations.bound st j) ta)
  /\ length (MultiField.textAreas st') = length (MultiField.textAreas st).
Proof.
  intros Hlk. cbn zeta.
  destruct (MultiFieldPass.handler_fresh render st) as (_ & _ & Hfresh).
  split; [now apply Hfresh|].
  unfold MultiField.handleReferenceCharCountChange.
  set (st1 := if MultiField.referenceCharCount st <? 1
              then MultiField.set_referenceCharCount 1 st else st).
  assert (H1 : 0 <= MultiField.referenceCharCount st1
               /\ MultiField.textAreas st1 = MultiField.textAreas st).
  { subst st1. destruct (Z.ltb_spec (MultiField.referenceCharCount st) 1); cbn;
      split; try reflexivity; lia. }
  destruct H1 as [Hc1 Ha1].
  destruct (MultiFieldFacts.measureEach_flags render (MultiField.indicesOf st1) st1
              Hc1 (MultiFieldFacts.indicesOf_nonneg st1)) as (_ & Hlen & _).
  cbn zeta in Hlen. now rewrite Hlen, Ha1.
Qed.

Lemma X7_witness :
  MultiField.textAreas
    (fst (MultiField.handleReferenceCharCountChange Spec.monospace16
            (MultiField.set_referenceCharCount 0
               (MultiField.mount MultiField.created)))) !! 1%nat
  = Some (MultiField.mkTextArea (KANA10 ++ KANA10 ++ KANA10 ++ AIUEO)
            560%Q 35 0 true).
Proof.
  exact (proj1 (X7_count_change_remeasures_all Spec.monospace16
                  (MultiField.set_referenceCharCount 0
                     (MultiField.mount MultiField.created)) 1 _ eq_refl)).
Defined.

(** X8.  When the fonts are ready, [onMounted] of the multi-field view
    shows the view and measures every text area afresh; no pass fails when
    the count is not negative. *)
Theorem X8_mounted_measures_all (render : jsstring -> Q)
    (st : MultiField.State) :
  0 <= MultiField.referenceCharCount st ->
  let r := MultiField.onMounted render Dom.Resolved st in
  snd r = []
  /\ MultiField.fontLoaded (fst r) = true
  /\ forall j ta, MultiField.textAreas st !! j = Some ta ->
       MultiField.textAreas (fst r) !! j
       = Some (Observations.freshArea render (MultiField.referenceCharCount st)
                 (Observations.bound st j) ta).
Proof.
  intros Hc. cbn zeta. cbn [MultiField.onMounted].
  set (st1 := MultiField.set_fontLoaded true st).
  destruct (MultiFieldFacts.measureEach_flags render (MultiField.indicesOf st1) st1
              Hc (MultiFieldFacts.indicesOf_nonneg st1)) as (_ & _ & Herr & _).
  destruct (MultiFieldPass.measureEach_fresh render (MultiField.indicesOf st1) st1
              Hc (MultiFieldFacts.indicesOf_nonneg st1)) as (_ & Hfresh).
  cbn zeta in *. split; [exact Herr|]. split.
  - clear Hfresh Herr.
    assert (Hf : forall indices s,
              MultiField.fontLoaded
                (fst (MultiField.measureEach render indices s))
              = MultiField.fontLoaded s).
    { induction indices as [| i rest IH]; intros s; [reflexivity|].
      cbn [MultiField.measureEach].
      specialize (IH (MultiField.stateOf (MultiField.measureWidth render i s))).
      destruct (MultiField.measureEach render rest
                  (MultiField.stateOf (MultiField.measureWidth render i s))).
      cbn [fst] in *. rewrite IH.
      now destruct (MultiFieldFacts.measureWidth_frame render i s) as (_ & -> & _). }
    now rewrite Hf.
  - intros j ta Hlk.
    destruct (Hfresh j ta Hlk) as (ta' & Hlk' & _ & Hin & _).
    rewrite Hlk', Hin; [reflexivity|].
    apply MultiFieldFacts.indicesOf_In. eapply lookup_lt_Some; eassumption.
Qed.

Lemma X8_witness :
  snd (MultiField.onMounted Spec.monospace16 Dom.Resolved
         (MultiField.mount MultiField.created)) = []
  /\ MultiField.fontLoaded
       (fst (MultiField.onMounted Spec.monospace16 Dom.Resolved
               (MultiField.mount MultiField.created))) = true.
Proof.
  assert (H35 : 0 <= 35) by lia.
  destruct (X8_mounted_measures_all Spec.monospace16
              (MultiField.mount MultiField.created) H35) as (He & Hf & _).
  exact (conj He Hf).
Defined.

(** X9.  When the layout engine renders a one-line text at 16 pixels per
    code unit, the pass of the multi-field view flags the text area exactly
    when the text has more code units than the reference count. *)
Theorem X9_flag_counts_characters_on_em_grid (render : jsstring -> Q)
    (st : MultiField.State) (index : Z) (ta : MultiField.TextAreaData) :
  MultiField.at_index (MultiField.textAreas st) index = Some ta ->
  Observations.bound st (Z.to_nat index) = true ->
  ~ In JS.LINE_FEED (MultiField.text ta) ->
  (render (MultiField.text ta)
   == inject_Z (16 * Z.of_nat (length (MultiField.text ta))))%Q ->
  0 <= MultiField.referenceCharCount st ->
  exists st' ta',
    MultiField.measureWidth render index st = MultiField.Fulfilled st'
    /\ MultiField.at_index (MultiField.textAreas st') index = Some ta'
    /\ (MultiField.width ta'
        == inject_Z (16 * Z.of_nat (length (MultiField.text ta))))%Q
    /\ (MultiField.exceedsReference ta' = true
        <-> MultiField.referenceCharCount st
            < Z.of_nat (length (MultiField.text ta))).
Proof.
  intros Hta Hb Hlf Hrender Hc.
  destruct (MultiFieldFacts.measureWidth_present render index st ta Hta Hc)
    as (st1 & _ & E).
  set (st' := MultiField.measureField render index ta st1) in E.
  destruct (MultiFieldPass.pass_present render index st st' ta Hta E) as (Ha & _).
  destruct (MultiFieldFacts.at_index_Some _ _ _ Hta) as [Hi Hlk].
  rewrite Hb in Ha.
  exists st'. eexists. split; [exact E|]. split.
  { unfold MultiField.at_index. destruct (Z.ltb_spec index 0); [lia|].
    rewrite Ha. apply list_lookup_insert_eq. eapply lookup_lt_Some; eassumption. }
  unfold Observations.freshArea, Observations.widthOf.
  cbn [MultiField.width MultiField.exceedsReference].
  rewrite JSFacts.split_line by assumption.
  unfold Observations.maxLineWidth. cbn [fold_left].
  set (n := Z.of_nat (length (MultiField.text ta))) in *.
  assert (Hw : ((if Dom.gt (render (MultiField.text ta)) 0%Q
                 then render (MultiField.text ta) else 0%Q)
                == inject_Z (16 * n))%Q).
  { destruct (Dom.gt (render (MultiField.text ta)) 0%Q) eqn:G; [exact Hrender|].
    apply DomFacts.gt_false in G. rewrite Hrender in G.
    change 0%Q with (inject_Z 0) in G. rewrite <- Zle_Qle in G.
    assert (Hn : n = 0) by (subst n; lia). rewrite Hn. reflexivity. }
  split; [exact Hw|].
  rewrite DomFacts.gt_true, Hw, <- Zlt_Qlt. lia.
Qed.

Lemma X9_witness :
  exists st' ta',
    MultiField.measureWidth Spec.monospace16 1
      (MultiField.set_referenceCharCount 34 (MultiField.mount MultiField.created))
    = MultiField.Fulfilled st'
    /\ MultiField.at_index (MultiField.textAreas st') 1 = Some ta'
    /\ MultiField.exceedsReference ta' = true.
Proof.
  assert (H34 : 0 <= 34) by lia.
  assert (Hlf : ~ In JS.LINE_FEED (KANA10 ++ KANA10 ++ KANA10 ++ AIUEO)).
  { intros H. vm_compute in H. decompose [or] H; discriminate || contradiction. }
  assert (Hr : (Spec.monospace16 (KANA10 ++ KANA10 ++ KANA10 ++ AIUEO)
                == inject_Z (16 * Z.of_nat
                                    (length (KANA10 ++ KANA10 ++ KANA10 ++ AIUEO))))%Q)
    by reflexivity.
  destruct (X9_flag_counts_characters_on_em_grid Spec.monospace16
              (MultiField.set_referenceCharCount 34
                 (MultiField.mount MultiField.created))
              1 _ eq_refl eq_refl Hlf Hr H34)
    as (st' & ta' & E & Hlk & _ & Hflag).
  exists st', ta'. split; [exact E|]. split; [exact Hlk|].
  apply Hflag. vm_compute. reflexivity.
Defined.

(** X10.  Raising the reference count never turns an overflow flag on:
    after the handler has run for a count and then for a larger one, every
    text area has the width it had and is flagged only if it was flagged. *)
Theorem X10_larger_count_never_flags (render : jsstring -> Q)
    (st : MultiField.State) (c1 c2 : Z) (j : nat)
    (ta : MultiField.TextAreaData) :
  c1 <= c2 ->
  MultiField.textAreas st !! j = Some ta ->
  let s1 :=
    fst (MultiField.handleReferenceCharCountChange render
           (MultiField.set_referenceCharCount c1 st)) in
  let s2 :=
    fst (MultiField.handleReferenceCharCountChange render
           (MultiField.set_referenceCharCount c2 s1)) in
  exists ta1 ta2,
    MultiField.textAreas s1 !! j = Some ta1
    /\ MultiField.textAreas s2 !! j = Some ta2
    /\ MultiField.width ta2 = MultiField.width ta1
    /\ (MultiField.exceedsReference ta2 = true ->
        MultiField.exceedsReference ta1 = true).
Proof.
  intros Hle Hlk. cbn zeta.
  set (st1 := MultiField.set_referenceCharCount c1 st).
  destruct (MultiFieldPass.handler_fresh render st1) as (_ & Hb1 & Hf1).
  cbn zeta in *.
  set (s1 := fst (MultiField.handleReferenceCharCountChange render st1)) in *.
  set (st2 := MultiField.set_referenceCharCount c2 s1).
  destruct (MultiFieldPass.handler_fresh render st2) as (_ & _ & Hf2).
  cbn zeta in *.
  pose proof (Hf1 j ta Hlk) as H1.
  pose proof (Hf2 j _ H1) as H2.
  eexists. eexists. split; [exact H1|]. split; [exact H2|].
  assert (Hbound : Observations.bound st2 j = Observations.bound st1 j)
    by (rewrite <- Hb1; reflexivity).
  rewrite Hbound.
  cbn [Observations.freshArea MultiField.width MultiField.exceedsReference
       MultiField.text MultiField.referenceCharCount
       MultiField.set_referenceCharCount st1 st2].
  split; [reflexivity|].
  rewrite !DomFacts.gt_true. intros H.
  eapply Qle_lt_trans; [|exact H].
  rewrite <- Zle_Qle. lia.
Qed.

Lemma X10_witness :
  exists ta1 ta2,
    MultiField.textAreas
      (fst (MultiField.handleReferenceCharCountChange Spec.monospace16
              (MultiField.set_referenceCharCount 30
                 (MultiField.mount MultiField.created)))) !! 1%nat = Some ta1
    /\ MultiField.textAreas
         (fst (MultiField.handleReferenceCharCountChange Spec.monospace16
                 (MultiField.set_referenceCharCount 40
                    (fst (MultiField.handleReferenceCharCountChange
                            Spec.monospace16
                            (MultiField.set_referenceCharCount 30
                               (MultiField.mount MultiField.created)))))))
         !! 1%nat = Some ta2
    /\ MultiField.width ta2 = MultiField.width ta1.
Proof.
  assert (Hle : 30 <= 40) by lia.
  destruct (X10_larger_count_never_flags Spec.monospace16
              (MultiField.mount MultiField.created) 30 40 1 _ Hle eq_refl)
    as (ta1 & ta2 & H1 & H2 & Hw & _).
  exists ta1, ta2. exact (conj H1 (conj H2 Hw)).
Defined.

End HandlerProperties.

(* ===================================================================== *)
(** ** The reference span, failures and stored widths *)
(* ===================================================================== *)

Module ReferenceProperties.

(** X11.  With the reference span bound and a count that is not negative,
    a pass of either view writes the reference character repeated [count]
    times into the reference span and stores the width the layout engine
    gives for it as the reference width. *)
Theorem X11_reference_is_count_copies (render : jsstring -> Q) :
  (forall (st : SingleField.State) (el : Dom.Span),
     SingleField.referenceMeasurementRef st = Some el ->
     0 <= SingleField.referenceCharCount st ->
     exists st',
       SingleField.measureWidth render st = SingleField.Fulfilled st'
       /\ SingleField.referenceWidth st'
          = render (List.repeat HIRAGANA_A
                      (Z.to_nat (SingleField.referenceCharCount st)))
       /\ option_map Dom.textContent (SingleField.referenceMeasurementRef st')
          = Some (List.repeat HIRAGANA_A
                    (Z.to_nat (SingleField.referenceCharCount st))))
  /\ (forall (st : MultiField.State) (index : Z) (el : Dom.Span),
        MultiField.referenceMeasurementRef st = Some el ->
        0 <= MultiField.referenceCharCount st ->
        exists st',
          MultiField.measureWidth render index st = MultiField.Fulfilled st'
          /\ MultiField.referenceWidth st'
             = render (List.repeat HIRAGANA_A
                         (Z.to_nat (MultiField.referenceCharCount st)))
          /\ option_map Dom.textContent (MultiField.referenceMeasurementRef st')
             = Some (List.repeat HIRAGANA_A
                       (Z.to_nat (MultiField.referenceCharCount st)))).
Proof.
  split.
  - intros st el Hr Hc.
    unfold SingleField.measureWidth, SingleField.measureReference,
      SingleField.referenceText.
    rewrite Hr, StringFacts.repeat_referenceString by assumption. cbn.
    destruct (SingleField.measurementRef st) as [el0 |];
      [destruct (JS.truthy _)|];
      try destruct (Dom.measureLines _ _ _ _);
      (eexists; split; [reflexivity|]; cbn; split; reflexivity).
  - intros st index el Hr Hc.
    destruct (MultiFieldPass.pass_reference render index st el Hr Hc)
      as (st' & E & Hw & Hel).
    exists st'. split; [exact E|]. split; [exact Hw|]. now rewrite Hel.
Qed.

Lemma X11_witness :
  exists st',
    SingleField.measureWidth Spec.monospace16
      (SingleField.set_referenceCharCount 3 (SingleField.mount SingleField.created))
    = SingleField.Fulfilled st'
    /\ SingleField.referenceWidth st' = 48%Q
    /\ option_map Dom.textContent (SingleField.referenceMeasurementRef st')
       = Some [HIRAGANA_A; HIRAGANA_A; HIRAGANA_A].
Proof.
  assert (H3 : 0 <= 3) by lia.
  destruct (X11_reference_is_count_copies Spec.monospace16) as [TS _].
  exact (TS (SingleField.set_referenceCharCount 3
               (SingleField.mount SingleField.created)) Dom.mounted eq_refl H3).
Defined.

(** X12.  In both views a pass with the reference span bound and a
    negative count is rejected with the [RangeError] of [repeat] before it
    has changed anything.  A rejected pass always leaves the state as it
    was, and it can only come from measuring a bound reference span. *)
Theorem X12_negative_count_rejects_untouched (render : jsstring -> Q) :
  (forall (st : SingleField.State) (el : Dom.Span),
     SingleField.referenceMeasurementRef st = Some el ->
     SingleField.referenceCharCount st < 0 ->
     SingleField.measureWidth render st
     = SingleField.Rejected JS.RangeError st)
  /\ (forall (st st' : SingleField.State) (e : JS.Error),
        SingleField.measureWidth render st = SingleField.Rejected e st' ->
        st' = st /\ SingleField.referenceMeasurementRef st <> None)
  /\ (forall (st : MultiField.State) (index : Z) (el : Dom.Span),
        MultiField.referenceMeasurementRef st = Some el ->
        MultiField.referenceCharCount st < 0 ->
        MultiField.measureWidth render index st
        = MultiField.Rejected JS.RangeError st)
  /\ (forall (st st' : MultiField.State) (index : Z) (e : JS.Error),
        MultiField.measureWidth render index st = MultiField.Rejected e st' ->
        st' = st /\ MultiField.referenceMeasurementRef st <> None).
Proof.
  split; [| split; [| split]].
  - intros st el Hr Hc. now apply (SingleFieldPass.pass_rejected render st el).
  - intros st st' e E.
    destruct (SingleFieldFacts.measureWidth_rejected_single render st st' e E)
      as [-> _].
    split; [reflexivity|]. intros Hnone.
    destruct (SingleFieldPass.pass_unbound_reference render st Hnone) as (s & Es).
    congruence.
  - intros st index el Hr Hc.
    unfold MultiField.measureWidth, MultiField.measureReference,
      MultiField.referenceText, JS.repeat.
    rewrite Hr. destruct (Z.ltb_spec (MultiField.referenceCharCount st) 0);
      [reflexivity | lia].
  - intros st st' index e E.
    destruct (MultiFieldFacts.measureWidth_rejected render index st st' e E)
      as [-> _].
    split; [reflexivity|]. intros Hnone.
    unfold MultiField.measureWidth, MultiField.measureReference in E.
    rewrite Hnone in E.
    destruct (MultiField.at_index (MultiField.textAreas st) index); discriminate.
Qed.

Lemma X12_witness :
  SingleField.measureWidth Spec.monospace16
    (SingleField.set_referenceCharCount (-1)
       (SingleField.mount SingleField.created))
  = SingleField.Rejected JS.RangeError
      (SingleField.set_referenceCharCount (-1)
         (SingleField.mount SingleField.created)).
Proof.
  assert (Hneg : -1 < 0) by lia.
  exact (proj1 (X12_negative_count_rejects_untouched Spec.monospace16)
           (SingleField.set_referenceCharCount (-1)
              (SingleField.mount SingleField.created))
           Dom.mounted eq_refl Hneg).
Defined.

(** X13.  In the single-field view a rejected font promise leads to the
    same state as a resolved one, but for one more console error: the view
    is shown and the same widths are stored. *)
Theorem X13_single_view_fails_open (render : jsstring -> Q)
    (st : SingleField.State) :
  let rejected :=
    SingleField.stateOf (SingleField.onMounted render Dom.RejectedPromise st) in
  let resolved :=
    SingleField.stateOf (SingleField.onMounted render Dom.Resolved st) in
  Observations.sameButConsole rejected resolved
  /\ SingleField.consoleErrors rejected = S (SingleField.consoleErrors resolved)
  /\ SingleField.fontLoaded resolved = true.
Proof.
  cbn zeta. cbn [SingleField.onMounted].
  change (SingleField.set_fontLoaded true (SingleField.console_error st))
    with (SingleField.console_error (SingleField.set_fontLoaded true st)).
  destruct (SingleFieldPass.pass_console_error render
              (SingleField.set_fontLoaded true st)) as [Hsame Hcons].
  split; [exact Hsame|]. split; [exact Hcons|].
  now destruct (SingleFieldFacts.measureWidth_frame_single render
                  (SingleField.set_fontLoaded true st)) as (_ & _ & -> & _).
Qed.

(** X14.  A pass never stores a negative width for a field, whatever the
    layout engine reports: the input width of the single-field view and
    the widths of the text areas of the multi-field view stay
    non-negative, because the loop starts from 0.  The reference width has
    no such floor: with the reference span bound it is stored exactly as
    the layout engine reports it. *)
Theorem X14_field_widths_stay_non_negative (render : jsstring -> Q) :
  (forall st : SingleField.State,
     (0 <= SingleField.inputWidth st)%Q ->
     (0 <= SingleField.inputWidth
             (SingleField.stateOf (SingleField.measureWidth render st)))%Q)
  /\ (forall (st : MultiField.State) (index : Z),
        (forall j ta, MultiField.textAreas st !! j = Some ta ->
                      (0 <= MultiField.width ta)%Q) ->
        forall j ta,
          MultiField.textAreas
            (MultiField.stateOf (MultiField.measureWidth render index st)) !! j
          = Some ta ->
          (0 <= MultiField.width ta)%Q)
  /\ (forall (st : SingleField.State) (el : Dom.Span),
        SingleField.referenceMeasurementRef st = Some el ->
        0 <= SingleField.referenceCharCount st ->
        SingleField.referenceWidth
          (SingleField.stateOf (SingleField.measureWidth render st))
        = render (List.repeat HIRAGANA_A
                    (Z.to_nat (SingleField.referenceCharCount st))))
  /\ (forall (st : MultiField.State) (index : Z) (el : Dom.Span),
        MultiField.referenceMeasurementRef st = Some el ->
        0 <= MultiField.referenceCharCount st ->
        MultiField.referenceWidth
          (MultiField.stateOf (MultiField.measureWidth render index st))
        = render (List.repeat HIRAGANA_A
                    (Z.to_nat (MultiField.referenceCharCount st)))).
Proof.
  split; [| split; [| split]].
  - intros st H0.
    destruct (SingleField.measureWidth render st) as [st' | e st'] eqn:E.
    + cbn [SingleField.stateOf].
      destruct (Z.lt_ge_cases (SingleField.referenceCharCount st) 0) as [Hneg | Hc].
      * unfold SingleField.measureWidth, SingleField.measureReference in E.
        destruct (SingleField.referenceMeasurementRef st) as [rel |].
        -- unfold SingleField.referenceText, JS.repeat in E.
           destruct (Z.ltb_spec (SingleField.referenceCharCount st) 0);
             [discriminate | lia].
        -- destruct (SingleField.measurementRef st) as [el |].
           ++ destruct (JS.truthy (SingleField.inputText st)).
              ** pose proof (LoopFacts.measureLines_width render
                               (JS.split (SingleField.inputText st)) el 0%Q) as Hw.
                 destruct (Dom.measureLines render
                             (JS.split (SingleField.inputText st)) el 0%Q)
                   as [w el'].
                 injection E as <-. cbn in *. rewrite Hw.
                 apply LoopFacts.maxLineWidth_ge.
              ** injection E as <-. cbn. apply Qle_refl.
           ++ injection E as <-. cbn. apply Qle_refl.
      * destruct (SingleFieldPass.pass_observed render st Hc)
          as (s & Es & _ & _ & _ & _ & Hw & _).
        rewrite E in Es. injection Es as <-. rewrite Hw.
        unfold Observations.singleInputWidth.
        destruct (SingleField.measurementRef st); [|apply Qle_refl].
        destruct (JS.truthy _); [apply LoopFacts.maxLineWidth_ge | apply Qle_refl].
    + apply SingleFieldFacts.measureWidth_rejected_single in E.
      destruct E as [-> _]. exact H0.
  - intros st index Hall j ta.
    destruct (MultiFieldPass.pass_cases render index st)
      as [(e & ->) | (st1 & Hst1 & ->)]; cbn [MultiField.stateOf];
      [apply Hall|].
    destruct (MultiFieldFacts.referenceOnly_frame _ _ Hst1) as (Ha & _).
    destruct (MultiField.at_index (MultiField.textAreas st) index)
      as [ta0 |] eqn:Eta; [| rewrite Ha; apply Hall].
    destruct (MultiFieldFacts.at_index_Some _ _ _ Eta) as [Hi Hlk0].
    rewrite MultiFieldFacts.measureField_eq. cbn. rewrite Ha.
    destruct (decide (Z.to_nat index = j)) as [<- | Hne].
    + rewrite list_lookup_insert_eq by (eapply lookup_lt_Some; eassumption).
      intros [= <-]. unfold Spec.measured. cbn [MultiField.width].
      rewrite MultiFieldPass.measureSpan_width by assumption.
      unfold Observations.widthOf.
      destruct (Observations.bound st1 (Z.to_nat index));
        [apply LoopFacts.maxLineWidth_ge | apply Qle_refl].
    + rewrite list_lookup_insert_ne by assumption. apply Hall.
  - intros st el Hr Hc.
    destruct (SingleFieldPass.pass_observed render st Hc)
      as (st' & -> & _ & _ & _ & _ & _ & Hrw & _).
    cbn [SingleField.stateOf]. rewrite Hrw.
    unfold Observations.singleReferenceWidth. now rewrite Hr.
  - intros st index el Hr Hc.
    destruct (MultiFieldPass.pass_reference render index st el Hr Hc)
      as (st' & -> & Hrw & _).
    exact Hrw.
Qed.

Lemma X14_witness :
  (0 <= SingleField.inputWidth
          (SingleField.stateOf
             (SingleField.measureWidth (fun _ => (-5)%Q)
                (SingleField.mount SingleField.created))))%Q
  /\ SingleField.referenceWidth
       (SingleField.stateOf
          (SingleField.measureWidth (fun _ => (-5)%Q)
             (SingleField.mount SingleField.created))) = (-5)%Q.
Proof.
  assert (H0 : (0 <= SingleField.inputWidth
                       (SingleField.mount SingleField.created))%Q)
    by discriminate.
  assert (H35 : 0 <= 35) by lia.
  destruct (X14_field_widths_stay_non_negative (fun _ => (-5)%Q))
    as (TI & _ & TR & _).
  exact (conj (TI (SingleField.mount SingleField.created) H0)
           (TR (SingleField.mount SingleField.created) Dom.mounted eq_refl H35)).
Defined.

End ReferenceProperties.

(* ===================================================================== *)
(** ** What the single-field view displays *)
(* ===================================================================== *)

Module DisplayProperties.

Lemma lt_true (a b : Q) : Display.lt a b = true <-> (a < b)%Q.
Proof. exact (DomFacts.gt_true b a). Qed.

Lemma ratio_bounds (x m : Q) :
  (0 <= x)%Q -> (x <= m)%Q -> (0 < m)%Q ->
  (0 <= x / m * 100)%Q /\ (x / m * 100 <= 100)%Q.
Proof.
  intros Hx Hxm Hm.
  assert (H0 : (0 <= x / m)%Q).
  { apply Qle_shift_div_l; [exact Hm|]. now rewrite Qmult_0_l. }
  assert (H1 : (x / m <= 1)%Q).
  { apply Qle_shift_div_r; [exact Hm|]. now rewrite Qmult_1_l. }
  split.
  - apply Qmult_le_0_compat; [exact H0 | discriminate].
  - apply Qle_trans with (1 * 100)%Q; [|discriminate].
    apply Qmult_le_compat_r; [exact H1 | discriminate].
Qed.

(** X15.  With non-negative widths both bars of the single-field view lie
    between 0 and 100. *)
Theorem X15_bars_between_0_and_100 (st : SingleField.State) :
  (0 <= SingleField.referenceWidth st)%Q ->
  (0 <= SingleField.inputWidth st)%Q ->
  (0 <= SingleField.referenceBarWidth st <= 100)%Q
  /\ (0 <= SingleField.inputBarWidth st <= 100)%Q.
Proof.
  intros Hr Hi. unfold SingleField.referenceBarWidth, SingleField.inputBarWidth.
  set (r := SingleField.referenceWidth st) in *.
  set (i := SingleField.inputWidth st) in *.
  destruct (Dom.gt (Qmax r i) 0%Q) eqn:G.
  - apply DomFacts.gt_true in G.
    split; apply ratio_bounds; try assumption;
      [apply Q.le_max_l | apply Q.le_max_r].
  - split; split; discriminate.
Qed.

Lemma X15_witness :
  (0 <= SingleField.referenceBarWidth Scenarios.halfOfReference <= 100)%Q
  /\ (0 <= SingleField.inputBarWidth Scenarios.halfOfReference <= 100)%Q.
Proof.
  assert (Hr : (0 <= SingleField.referenceWidth Scenarios.halfOfReference)%Q)
    by discriminate.
  assert (Hi : (0 <= SingleField.inputWidth Scenarios.halfOfReference)%Q)
    by discriminate.
  exact (X15_bars_between_0_and_100 Scenarios.halfOfReference Hr Hi).
Defined.

Lemma label_follows_sign (toFixed : Q -> Z -> jsstring)
    (st : SingleField.State) :
  let diff := SingleField.widthDifference st in
  ((SingleField.referenceWidth st < SingleField.inputWidth st)%Q ->
     Display.differenceText toFixed st
     = Display.PLUS ++ toFixed diff 2 ++ Display.LONGER_SUFFIX
     /\ Display.positiveClass st = true /\ Display.negativeClass st = false)
  /\ ((SingleField.inputWidth st < SingleField.referenceWidth st)%Q ->
      Display.differenceText toFixed st
      = toFixed diff 2 ++ Display.SHORTER_SUFFIX
      /\ Display.positiveClass st = false /\ Display.negativeClass st = true)
  /\ ((SingleField.inputWidth st == SingleField.referenceWidth st)%Q ->
      Display.differenceText toFixed st = Display.SAME_LABEL
      /\ Display.positiveClass st = false /\ Display.negativeClass st = false).
Proof.
  cbn zeta.
  unfold Display.differenceText, Display.positiveClass, Display.negativeClass,
    SingleField.widthDifference.
  set (r := SingleField.referenceWidth st). set (i := SingleField.inputWidth st).
  split; [| split].
  - intros H.
    assert (G : Dom.gt (i - r) 0%Q = true) by (apply DomFacts.gt_true; lra).
    assert (L : Display.lt (i - r) 0%Q = false).
    { destruct (Display.lt (i - r) 0%Q) eqn:E; [|reflexivity].
      apply lt_true in E. lra. }
    rewrite G, L. auto.
  - intros H.
    assert (G : Dom.gt (i - r) 0%Q = false) by (apply DomFacts.gt_false; lra).
    assert (L : Display.lt (i - r) 0%Q = true) by (apply lt_true; lra).
    rewrite G, L. auto.
  - intros H.
    assert (G : Dom.gt (i - r) 0%Q = false) by (apply DomFacts.gt_false; lra).
    assert (L : Display.lt (i - r) 0%Q = false).
    { destruct (Display.lt (i - r) 0%Q) eqn:E; [|reflexivity].
      apply lt_true in E. lra. }
    rewrite G, L. auto.
Qed.

(** X16.  The difference label and its two classes follow the sign of
    input width minus reference width: a longer input gives the label with
    the plus sign and the class [positive] alone, a shorter input the label
    without it and the class [negative] alone, equal widths the fixed
    label and no class. *)
Theorem X16_difference_label_follows_sign (toFixed : Q -> Z -> jsstring)
    (st : SingleField.State) :
  let diff := SingleField.widthDifference st in
  ((SingleField.referenceWidth st < SingleField.inputWidth st)%Q ->
     Display.differenceText toFixed st
     = Display.PLUS ++ toFixed diff 2 ++ Display.LONGER_SUFFIX
     /\ Display.positiveClass st = true /\ Display.negativeClass st = false)
  /\ ((SingleField.inputWidth st < SingleField.referenceWidth st)%Q ->
      Display.differenceText toFixed st
      = toFixed diff 2 ++ Display.SHORTER_SUFFIX
      /\ Display.positiveClass st = false /\ Display.negativeClass st = true)
  /\ ((SingleField.inputWidth st == SingleField.referenceWidth st)%Q ->
      Display.differenceText toFixed st = Display.SAME_LABEL
      /\ Display.positiveClass st = false /\ Display.negativeClass st = false).
Proof. exact (label_follows_sign toFixed st). Qed.

Lemma X16_witness :
  Display.differenceText (fun _ _ => []) Scenarios.halfOfReference
  = Display.SHORTER_SUFFIX
  /\ Display.positiveClass Scenarios.halfOfReference = false
  /\ Display.negativeClass Scenarios.halfOfReference = true.
Proof.
  assert (H : (SingleField.inputWidth Scenarios.halfOfReference
               < SingleField.referenceWidth Scenarios.halfOfReference)%Q)
    by reflexivity.
  exact (proj1 (proj2 (X16_difference_label_follows_sign (fun _ _ => [])
                         Scenarios.halfOfReference)) H).
Defined.

Lemma reference_text_one_line (n : nat) :
  JS.split (List.repeat HIRAGANA_A n) = [List.repeat HIRAGANA_A n].
Proof.
  apply JSFacts.split_line. intros Hin.
  apply repeat_spec in Hin. discriminate Hin.
Qed.

(** X17.  When the text of the single-field view is the reference text
    itself and both spans are bound, a pass stores equal widths: the
    difference is 0 and the label is the one for equal widths.  The width
    the layout engine gives for that text must not be negative. *)
Theorem X17_reference_text_has_no_difference (render : jsstring -> Q)
    (toFixed : Q -> Z -> jsstring) (st : SingleField.State)
    (el rel : Dom.Span) :
  SingleField.measurementRef st = Some el ->
  SingleField.referenceMeasurementRef st = Some rel ->
  1 <= SingleField.referenceCharCount st ->
  SingleField.inputText st
  = List.repeat HIRAGANA_A (Z.to_nat (SingleField.referenceCharCount st)) ->
  (0 <= render (SingleField.inputText st))%Q ->
  exists st',
    SingleField.measureWidth render st = SingleField.Fulfilled st'
    /\ (SingleField.widthDifference st' == 0)%Q
    /\ Display.differenceText toFixed st' = Display.SAME_LABEL
    /\ Display.positiveClass st' = false
    /\ Display.negativeClass st' = false.
Proof.
  intros Hm Hr Hc Ht Hpos.
  destruct (SingleFieldPass.pass_observed render st ltac:(lia))
    as (st' & E & _ & _ & _ & _ & Hw & Hrw & _).
  assert (Heq : (SingleField.inputWidth st' == SingleField.referenceWidth st')%Q).
  { rewrite Hw, Hrw.
    unfold Observations.singleInputWidth, Observations.singleReferenceWidth,
      Observations.referenceString.
    rewrite Hm, Hr. rewrite Ht in *.
    set (n := Z.to_nat (SingleField.referenceCharCount st)) in *.
    assert (Hn : (n <> 0)%nat) by (subst n; lia).
    destruct n as [| n]; [contradiction|]. cbn [List.repeat JS.truthy].
    change (HIRAGANA_A :: List.repeat HIRAGANA_A n)
      with (List.repeat HIRAGANA_A (S n)) in *.
    rewrite reference_text_one_line.
    unfold Observations.maxLineWidth. cbn [fold_left].
    destruct (Dom.gt (render (List.repeat HIRAGANA_A (S n))) 0%Q) eqn:G;
      [reflexivity|].
    apply DomFacts.gt_false in G. now apply Qle_antisym. }
  exists st'. split; [exact E|].
  split; [unfold SingleField.widthDifference; lra|].
  exact (proj2 (proj2 (label_follows_sign toFixed st')) Heq).
Qed.

Lemma X17_witness :
  exists st',
    SingleField.measureWidth Spec.monospace16
      (SingleField.set_inputText (List.repeat HIRAGANA_A 35)
         (SingleField.mount SingleField.created))
    = SingleField.Fulfilled st'
    /\ (SingleField.widthDifference st' == 0)%Q
    /\ Display.differenceText (fun _ _ => []) st' = Display.SAME_LABEL.
Proof.
  assert (H35 : 1 <= 35) by lia.
  assert (Hpos : (0 <= Spec.monospace16 (List.repeat HIRAGANA_A 35))%Q)
    by discriminate.
  destruct (X17_reference_text_has_no_difference Spec.monospace16
              (fun _ _ => [])
              (SingleField.set_inputText (List.repeat HIRAGANA_A 35)
                 (SingleField.mount SingleField.created))
              Dom.mounted Dom.mounted eq_refl eq_refl H35 eq_refl Hpos)
    as (st' & E & Hd & Hl & _).
  exists st'. exact (conj E (conj Hd Hl)).
Defined.

(** X18.  The character counter of the single-field view warns when fewer
    than 50 of the 300 characters remain, that is above 250 code units; the
    counters of the multi-field view warn from 250 code units on, and
    never for an index without a text area. *)
Theorem X18_counter_warning_thresholds :
  (forall st : SingleField.State,
     Display.remainingWarning st = true
     <-> (250 < length (SingleField.inputText st))%nat)
  /\ (forall (st : MultiField.State) (index : Z) (ta : MultiField.TextAreaData),
        MultiField.at_index (MultiField.textAreas st) index = Some ta ->
        (Display.charCounterWarning index st = true
         <-> (250 <= length (MultiField.text ta))%nat))
  /\ (forall (st : MultiField.State) (index : Z),
        MultiField.at_index (MultiField.textAreas st) index = None ->
        Display.charCounterWarning index st = false).
Proof.
  split; [| split].
  - intros st. unfold Display.remainingWarning, SingleField.remainingChars,
      SingleField.maxLength, JS.strlen.
    rewrite Z.ltb_lt. lia.
  - intros st index ta Hta.
    unfold Display.charCounterWarning, MultiField.inputCharCount,
      MultiField.maxLength, JS.strlen.
    rewrite Hta, Z.leb_le. lia.
  - intros st index Hta.
    unfold Display.charCounterWarning, MultiField.inputCharCount.
    now rewrite Hta.
Qed.

Lemma X18_witness :
  Display.charCounterWarning 0
    (MultiField.set_textAreas [MultiField.sample (List.repeat 0x41 250)]
       MultiField.created) = true
  /\ Display.remainingWarning
       (SingleField.set_inputText (List.repeat 0x41 250) SingleField.created)
     = false.
Proof.
  destruct X18_counter_warning_thresholds as (TS & TM & _).
  split.
  - apply (TM (MultiField.set_textAreas
                 [MultiField.sample (List.repeat 0x41 250)] MultiField.created)
              0 _ eq_refl).
    cbn [MultiField.text MultiField.sample]. rewrite repeat_length. lia.
  - destruct (Display.remainingWarning
                (SingleField.set_inputText (List.repeat 0x41 250)
                   SingleField.created)) eqn:E; [|reflexivity].
    apply TS in E. cbn [SingleField.inputText SingleField.set_inputText] in E.
    rewrite repeat_length in E. lia.
Defined.

End DisplayProperties.
